(** * ERP backend: master data, inventory and dashboard handlers

    A shallow embedding of [main.py] and [schemas.py].  Python [float] is
    IEEE binary64, embedded as Rocq's primitive [float]; a [dict] is a
    [gmap string value]; the handlers run in a state-and-exception monad over
    the process-wide store handle [db] and the wall clock.

    The store is MongoDB behind its Python driver.  A collection is the list
    of its documents in natural (insertion) order; [find_one] and
    [update_one] act on the first document that matches, [find] yields the
    matching ones in order, and a document inserted without [_id] gets a
    fresh [ObjectId] from the driver.

    What is stated of a handler is the value it returns or the exception it
    raises, and the store it leaves behind. *)

From Stdlib Require Import Floats ZArith.
From stdpp Require Import gmap strings list fin_maps.

Set Warnings "-register-all".

(** ** Python and BSON values *)

(** An [ObjectId] is twelve bytes, kept here as the number they spell. *)
Definition ObjectId := N.

Inductive value : Type :=
  | VNone
  | VBool (b : bool)
  | VInt (z : Z)
  | VFloat (f : float)
  | VStr (s : string)
  | VOid (o : ObjectId)
  | VDate (t : Z)
  | VList (l : list value)
  | VDict (d : gmap string value).

Abbreviation dict := (gmap string value).

Definition hex_digit (n : N) : string :=
  String.substring (N.to_nat n) 1 "0123456789abcdef".

Fixpoint hex_fixed (width : nat) (n : N) (acc : string) : string :=
  match width with
  | O => acc
  | S width' => hex_fixed width' (n / 16)%N (hex_digit (n mod 16)%N +:+ acc)
  end.

(** [str(ObjectId(..))]: twenty-four lower-case hexadecimal digits. *)
Definition str_oid (o : ObjectId) : string := hex_fixed 24 o EmptyString.

(** [float(n)] for a Python [int]: round to nearest even; a magnitude beyond
    the binary64 range raises [OverflowError] ([None]). *)
Definition float_of_Z (z : Z) : option float :=
  let f := SF2Prim (binary_normalize prec emax z 0 false) in
  if is_infinity f then None else Some f.

Section PyFloat.
(** Python's parser of float literals, used by [float(s)] on a [str];
    [None] is [ValueError]. *)
Variable float_of_string : string -> option float.

(** The builtin [float(v)]; [None] stands for the exception it raises. *)
Definition py_float (v : value) : option float :=
  match v with
  | VFloat f => Some f
  | VInt z => float_of_Z z
  | VBool b => Some (if b then 1%float else 0%float)
  | VStr s => float_of_string s
  | _ => None
  end.
End PyFloat.

(** Unary minus, [-v]; [None] is [TypeError]. *)
Definition py_neg (v : value) : option value :=
  match v with
  | VFloat f => Some (VFloat (- f)%float)
  | VInt z => Some (VInt (- z))
  | VBool b => Some (VInt (if b then -1 else 0))
  | _ => None
  end.

(** [v == s] for a string literal [s]. *)
Definition py_eq_str (v : value) (s : string) : bool :=
  match v with
  | VStr s' => String.eqb s' s
  | _ => false
  end.

(** Truth value of an [Optional[dict]], as tested by [if lvl:]. *)
Definition truthy (o : option dict) : bool :=
  match o with
  | None => false
  | Some d => negb (bool_decide (d = ∅))
  end.

(** [d.get(k, default)]. *)
Definition dict_get (d : dict) (k : string) (dflt : value) : value :=
  default dflt (d !! k).

(** ** The document store *)

(** A stored document always carries the [_id] the driver gave it. *)
Record StoredDoc := mkDoc { doc_id : ObjectId; doc_fields : dict }.

(** The document as the driver hands it back. *)
Definition as_dict (sd : StoredDoc) : dict :=
  <["_id" := VOid (doc_id sd)]> (doc_fields sd).

Record Database := mkDb {
  collections : gmap string (list StoredDoc);
  next_oid : ObjectId
}.

Definition coll_of (d : Database) (name : string) : list StoredDoc :=
  default [] (collections d !! name).

Definition set_coll (d : Database) (name : string) (c : list StoredDoc) : Database :=
  mkDb (<[name := c]> (collections d)) (next_oid d).

(** Filter operators used by the handlers. *)
Inductive cond :=
  | Eq (q : value)
  | In_ (qs : list value)
  | Lte (q : value).

Abbreviation query := (list (string * cond)).

(** Equality of a query literal and a stored scalar.  The filters of the
    handlers compare strings and identifiers; a number is compared with a
    number of its own type only. *)
Definition scalar_eq (q v : value) : bool :=
  match q, v with
  | VNone, VNone => true
  | VBool a, VBool b => Bool.eqb a b
  | VInt a, VInt b => Z.eqb a b
  | VFloat a, VFloat b => (a =? b)%float || (is_nan a && is_nan b)
  | VStr a, VStr b => String.eqb a b
  | VOid a, VOid b => N.eqb a b
  | VDate a, VDate b => Z.eqb a b
  | _, _ => false
  end.

(** [v <= q] within the numeric type bracket; an [int] literal is compared
    with a stored double as the double it converts to (exact for [0]). *)
Definition scalar_lte (q v : value) : bool :=
  match q, v with
  | VInt b, VInt a => Z.leb a b
  | VFloat b, VFloat a => (a <=? b)%float || (is_nan a && is_nan b)
  | VInt b, VFloat a =>
      match float_of_Z b with Some fb => (a <=? fb)%float | None => false end
  | VFloat b, VInt a =>
      match float_of_Z a with Some fa => (fa <=? b)%float | None => false end
  | _, _ => false
  end.

(** A field holding an array matches when one of its elements does. *)
Definition field_matches (p : value -> bool) (v : option value) : bool :=
  match v with
  | None => false
  | Some (VList l) => existsb p l
  | Some x => p x
  end.

Definition cond_holds (c : cond) (v : option value) : bool :=
  match c with
  | Eq VNone => match v with None => true | _ => field_matches (scalar_eq VNone) v end
  | Eq q => field_matches (scalar_eq q) v
  | In_ qs => field_matches (fun x => existsb (fun q => scalar_eq q x) qs) v
  | Lte q => field_matches (scalar_lte q) v
  end.

Definition matches (q : query) (d : dict) : bool :=
  forallb (fun kc => cond_holds (snd kc) (d !! fst kc)) q.

Definition doc_matches (q : query) (sd : StoredDoc) : Prop :=
  matches q (as_dict sd) = true.

#[global] Instance doc_matches_dec q sd : Decision (doc_matches q sd).
Proof. unfold doc_matches. apply _. Defined.

(** [$set]: overwrite the listed fields, keep the others. *)
Definition apply_set (sets : list (string * value)) (sd : StoredDoc) : StoredDoc :=
  mkDoc (doc_id sd) (foldl (fun f kv => <[fst kv := snd kv]> f) (doc_fields sd) sets).

(** ** Requests: state, clock and exceptions *)

Inductive exn :=
  | HTTPException (status_code : Z) (detail : string)
  | RequestValidationError
  | Uncaught (what : string).

(** The status the framework answers with. *)
Definition status_of (e : exn) : Z :=
  match e with
  | HTTPException s _ => s
  | RequestValidationError => 422
  | Uncaught _ => 500
  end.

Inductive outcome (A : Type) :=
  | Return (a : A)
  | Raise (e : exn).
Arguments Return {A} a.
Arguments Raise {A} e.

(** [db] is the module-level handle ([None] when no store is configured);
    [wall n] is what the [n]-th reading of the clock returns. *)
Record World := mkWorld {
  db : option Database;
  wall : nat -> Z;
  reads : nat
}.

Definition M (A : Type) : Type := World -> outcome A * World.

Definition ret {A} (a : A) : M A := fun w => (Return a, w).
Definition raise {A} (e : exn) : M A := fun w => (Raise e, w).
Definition bind {A B} (m : M A) (f : A -> M B) : M B :=
  fun w => match m w with
           | (Return a, w') => f a w'
           | (Raise e, w') => (Raise e, w')
           end.

Notation "'let*' x ':=' m 'in' k" := (bind m (fun x => k))
  (at level 10, x name, m at level 100, k at level 200).
Notation "'run' m 'in' k" := (bind m (fun _ => k))
  (at level 10, m at level 100, k at level 200).

(** Lift a partial builtin: [None] is the exception [what]. *)
Definition try_ {A} (what : string) (o : option A) : M A :=
  match o with
  | Some a => ret a
  | None => raise (Uncaught what)
  end.

(** [d[k]]. *)
Definition getitem (d : dict) (k : string) : M value :=
  try_ "KeyError" (d !! k).

(** [datetime.utcnow()]. *)
Definition utcnow : M value :=
  fun w => (Return (VDate (wall w (reads w))), mkWorld (db w) (wall w) (S (reads w))).

Fixpoint for_each {A B} (f : A -> M B) (l : list A) : M (list B) :=
  match l with
  | [] => ret []
  | x :: l' => let* y := f x in let* ys := for_each f l' in ret (y :: ys)
  end.

(** *** Driver operations on a collection handle *)

(** A handle [db[name]] is the collection's name; it can only be had from a
    [db] that is not [None]. *)
Definition with_db {A} (f : Database -> outcome A * Database) : M A :=
  fun w => match db w with
           | None => (Raise (Uncaught "AttributeError"), w)
           | Some d => let '(r, d') := f d in (r, mkWorld (Some d') (wall w) (reads w))
           end.

Definition find_one (h : string) (q : query) : M (option dict) :=
  with_db (fun d =>
    (Return (as_dict <$> (snd <$> list_find (doc_matches q) (coll_of d h))), d)).

(** The handlers insert documents without an [_id], so the driver makes one. *)
Definition insert_one (h : string) (doc : dict) : M ObjectId :=
  with_db (fun d =>
    let o := next_oid d in
    (Return o,
     mkDb (<[h := coll_of d h ++ [mkDoc o doc]]> (collections d)) (N.succ o))).

Definition update_one (h : string) (q : query) (sets : list (string * value)) : M unit :=
  with_db (fun d =>
    match list_find (doc_matches q) (coll_of d h) with
    | Some (i, sd) => (Return tt, set_coll d h (<[i := apply_set sets sd]> (coll_of d h)))
    | None => (Return tt, d)
    end).

Definition count_documents (h : string) (q : query) : M value :=
  with_db (fun d =>
    (Return (VInt (Z.of_nat (length (filter (doc_matches q) (coll_of d h))))), d)).

(** [find(q)] and [.limit(n)] on the cursor, then [list(..)]. *)
Definition find (h : string) (q : query) : M (list dict) :=
  with_db (fun d => (Return (as_dict <$> filter (doc_matches q) (coll_of d h)), d)).

Definition limit (n : nat) (cursor : list dict) : list dict := take n cursor.

(** ** Entity schemas ([schemas.py])

    A record is a payload after validation: every field has its declared
    type; [valid] holds the [Field] constraints; [model_dump] is the dict the
    handlers work on.  A [str], [bool] or [Literal] default is filled in.  A
    numeric field declared with the default [0] is [None] when the payload
    leaves it out: the default is the [int] of the declaration, and no
    constraint is checked on it. *)

Definition opt_str (o : option string) : value :=
  match o with
  | Some s => VStr s
  | None => VNone
  end.

Definition float_or_0 (o : option float) : value :=
  match o with
  | Some f => VFloat f
  | None => VInt 0
  end.

(** [ge=0] on a field with default [0]. *)
Definition ge_0 (o : option float) : bool :=
  match o with
  | Some f => (0 <=? f)%float
  | None => true
  end.

Module Warehouse.
Record t := mk {
  name : string;
  code : string;
  address : option string;
  is_active : bool
}.
Definition valid (_ : t) : bool := true.
Definition model_dump (x : t) : dict :=
  list_to_map [("name", VStr (name x)); ("code", VStr (code x));
               ("address", opt_str (address x)); ("is_active", VBool (is_active x))].
End Warehouse.

Module Customer.
Record t := mk {
  name : string;
  email : option string;
  phone : option string;
  billing_address : option string;
  shipping_address : option string;
  tax_id : option string;
  credit_limit : option float;
  is_active : bool
}.
Definition valid (_ : t) : bool := true.
Definition model_dump (x : t) : dict :=
  list_to_map [("name", VStr (name x)); ("email", opt_str (email x));
               ("phone", opt_str (phone x));
               ("billing_address", opt_str (billing_address x));
               ("shipping_address", opt_str (shipping_address x));
               ("tax_id", opt_str (tax_id x));
               ("credit_limit", float_or_0 (credit_limit x));
               ("is_active", VBool (is_active x))].
End Customer.

Module Supplier.
Record t := mk {
  name : string;
  email : option string;
  phone : option string;
  address : option string;
  tax_id : option string;
  is_active : bool
}.
Definition valid (_ : t) : bool := true.
Definition model_dump (x : t) : dict :=
  list_to_map [("name", VStr (name x)); ("email", opt_str (email x));
               ("phone", opt_str (phone x)); ("address", opt_str (address x));
               ("tax_id", opt_str (tax_id x)); ("is_active", VBool (is_active x))].
End Supplier.

Module Tax.
Inductive kind := vat | gst | sales | withholding | other.
Definition kind_str (k : kind) : string :=
  match k with
  | vat => "vat" | gst => "gst" | sales => "sales"
  | withholding => "withholding" | other => "other"
  end.
Record t := mk {
  name : string;
  rate : option float;
  type : kind;
  is_inclusive : bool;
  is_active : bool
}.
Definition valid (x : t) : bool := ge_0 (rate x).
Definition model_dump (x : t) : dict :=
  list_to_map [("name", VStr (name x)); ("rate", float_or_0 (rate x));
               ("type", VStr (kind_str (type x)));
               ("is_inclusive", VBool (is_inclusive x));
               ("is_active", VBool (is_active x))].
End Tax.

Module Product.
Record t := mk {
  sku : string;
  name : string;
  description : option string;
  uom : string;
  price : option float;
  cost : option float;
  tax_code : option string;
  is_active : bool
}.
Definition valid (x : t) : bool := ge_0 (price x) && ge_0 (cost x).
Definition model_dump (x : t) : dict :=
  list_to_map [("sku", VStr (sku x)); ("name", VStr (name x));
               ("description", opt_str (description x)); ("uom", VStr (uom x));
               ("price", float_or_0 (price x)); ("cost", float_or_0 (cost x));
               ("tax_code", opt_str (tax_code x)); ("is_active", VBool (is_active x))].
End Product.

Module InventoryTransaction.
Inductive kind := in_ | out | transfer | adjustment.
Definition kind_str (k : kind) : string :=
  match k with
  | in_ => "in" | out => "out" | transfer => "transfer" | adjustment => "adjustment"
  end.
Record t := mk {
  type : kind;
  product_sku : string;
  quantity : float;
  warehouse_code : string;
  reference : option string;
  notes : option string
}.
(** [quantity: float] carries no [Field] constraint. *)
Definition valid (_ : t) : bool := true.
Definition model_dump (x : t) : dict :=
  list_to_map [("type", VStr (kind_str (type x)));
               ("product_sku", VStr (product_sku x));
               ("quantity", VFloat (quantity x));
               ("warehouse_code", VStr (warehouse_code x));
               ("reference", opt_str (reference x)); ("notes", opt_str (notes x))].
End InventoryTransaction.

Module SalesOrderItem.
Record t := mk {
  product_sku : string;
  quantity : float;
  price : float;
  tax_rate : option float
}.
Definition model_dump (x : t) : dict :=
  list_to_map [("product_sku", VStr (product_sku x)); ("quantity", VFloat (quantity x));
               ("price", VFloat (price x)); ("tax_rate", float_or_0 (tax_rate x))].
End SalesOrderItem.

Module SalesOrder.
Inductive state := draft | confirmed | delivered | invoiced | closed.
Definition state_str (s : state) : string :=
  match s with
  | draft => "draft" | confirmed => "confirmed" | delivered => "delivered"
  | invoiced => "invoiced" | closed => "closed"
  end.
Record t := mk {
  number : string;
  customer_id : string;
  order_date : Z;
  currency : string;
  items : list SalesOrderItem.t;
  notes : option string;
  status : state
}.
Definition valid (_ : t) : bool := true.
Definition model_dump (x : t) : dict :=
  list_to_map [("number", VStr (number x)); ("customer_id", VStr (customer_id x));
               ("order_date", VDate (order_date x)); ("currency", VStr (currency x));
               ("items", VList ((fun i => VDict (SalesOrderItem.model_dump i)) <$> items x));
               ("notes", opt_str (notes x)); ("status", VStr (state_str (status x)))].
End SalesOrder.

Module InvoiceLine.
Record t := mk {
  product_sku : string;
  description : option string;
  quantity : float;
  unit_price : float;
  tax_rate : option float
}.
Definition model_dump (x : t) : dict :=
  list_to_map [("product_sku", VStr (product_sku x));
               ("description", opt_str (description x));
               ("quantity", VFloat (quantity x)); ("unit_price", VFloat (unit_price x));
               ("tax_rate", float_or_0 (tax_rate x))].
End InvoiceLine.

Module Invoice.
Inductive kind := sales | purchase.
Definition kind_str (k : kind) : string :=
  match k with sales => "sales" | purchase => "purchase" end.
Inductive state := draft | posted | paid | cancelled.
Definition state_str (s : state) : string :=
  match s with
  | draft => "draft" | posted => "posted" | paid => "paid" | cancelled => "cancelled"
  end.
Record t := mk {
  number : string;
  type : kind;
  partner_id : string;
  invoice_date : Z;
  currency : string;
  lines : list InvoiceLine.t;
  status : state
}.
Definition valid (_ : t) : bool := true.
Definition model_dump (x : t) : dict :=
  list_to_map [("number", VStr (number x)); ("type", VStr (kind_str (type x)));
               ("partner_id", VStr (partner_id x));
               ("invoice_date", VDate (invoice_date x)); ("currency", VStr (currency x));
               ("lines", VList ((fun l => VDict (InvoiceLine.model_dump l)) <$> lines x));
               ("status", VStr (state_str (status x)))].
End Invoice.

Module Payment.
Inductive kind := inbound | outbound.
Definition kind_str (k : kind) : string :=
  match k with inbound => "inbound" | outbound => "outbound" end.
Record t := mk {
  number : string;
  type : kind;
  partner_id : string;
  date : Z;
  currency : string;
  amount : float;
  method : string;
  reference : option string
}.
Definition valid (_ : t) : bool := true.
Definition model_dump (x : t) : dict :=
  list_to_map [("number", VStr (number x)); ("type", VStr (kind_str (type x)));
               ("partner_id", VStr (partner_id x)); ("date", VDate (date x));
               ("currency", VStr (currency x)); ("amount", VFloat (amount x));
               ("method", VStr (method x)); ("reference", opt_str (reference x))].
End Payment.

(** ** Document access layer ([database.py]) *)

(** Modelled from the spec: [database.py] is not among the sources.  The
    spec gives one error for an unavailable store on every endpoint, a server
    error "database not configured"; it is taken to be the exception
    [ensure_db] raises. *)
Definition store_unavailable : exn := HTTPException 500 "Database not configured".

(** Modelled from the spec: [database.py], [create(collection, record) -> id]:
    "insert one validated record, return its generated identifier"; a model
    instance is dumped to a dict by the caller of this definition. *)
Definition create_document (collection_name : string) (data : dict) : M string :=
  fun w =>
    match db w with
    | None => (Raise store_unavailable, w)
    | Some _ => (let* o := insert_one collection_name data in ret (str_oid o)) w
    end.

(** Modelled from the spec: [database.py], [list(collection)]: "fetch all
    records in a collection"; the handlers read the identifier under [_id]. *)
Definition get_documents (collection_name : string) : M (list dict) :=
  fun w =>
    match db w with
    | None => (Raise store_unavailable, w)
    | Some _ => find collection_name [] w
    end.

(** ** HTTP handlers ([main.py]) *)

(** A route validates the body against its schema before the handler runs. *)
Definition endpoint {P A} (valid : P -> bool) (handler : P -> M A) (payload : P) : M A :=
  if valid payload then handler payload else raise RequestValidationError.

Definition ensure_db : M unit :=
  fun w =>
    match db w with
    | None => (Raise (HTTPException 500 "Database not configured"), w)
    | Some _ => (Return tt, w)
    end.

Definition collection (name : string) : M string :=
  run ensure_db in ret name.

(** [str(v)] of an identifier read back from the store. *)
Definition py_str (v : value) : M string :=
  match v with
  | VOid o => ret (str_oid o)
  | VStr s => ret s
  | _ => raise (Uncaught "str() of this value is not modelled")
  end.

(** The loop body [d["id"] = str(d.pop("_id"))]. *)
Definition tag_id (d : dict) : M dict :=
  let* v := getitem d "_id" in
  let* s := py_str v in
  ret (<["id" := VStr s]> (delete "_id" d)).

Definition create_product (payload : Product.t) : M dict :=
  let prod := Product.model_dump payload in
  let* h := collection "product" in
  let* sku := getitem prod "sku" in
  let* found := find_one h [("sku", Eq sku)] in
  if truthy found then raise (HTTPException 400 "SKU already exists") else
  let* new_id := create_document "product" prod in
  ret (prod ∪ {["id" := VStr new_id]}).

Definition list_products : M (list dict) :=
  let* docs := get_documents "product" in for_each tag_id docs.

Definition create_customer (payload : Customer.t) : M dict :=
  let* new_id := create_document "customer" (Customer.model_dump payload) in
  ret {["id" := VStr new_id]}.

Definition list_customers : M (list dict) :=
  let* docs := get_documents "customer" in for_each tag_id docs.

Definition create_supplier (payload : Supplier.t) : M dict :=
  let* new_id := create_document "supplier" (Supplier.model_dump payload) in
  ret {["id" := VStr new_id]}.

Definition list_suppliers : M (list dict) :=
  let* docs := get_documents "supplier" in for_each tag_id docs.

Definition create_tax (payload : Tax.t) : M dict :=
  let* new_id := create_document "tax" (Tax.model_dump payload) in
  ret {["id" := VStr new_id]}.

Definition list_taxes : M (list dict) :=
  let* docs := get_documents "tax" in for_each tag_id docs.

Definition create_warehouse (payload : Warehouse.t) : M dict :=
  let wh := Warehouse.model_dump payload in
  let* h := collection "warehouse" in
  let* code := getitem wh "code" in
  let* found := find_one h [("code", Eq code)] in
  if truthy found then raise (HTTPException 400 "Warehouse code already exists") else
  let* new_id := create_document "warehouse" wh in
  ret {["id" := VStr new_id]}.

Definition list_warehouses : M (list dict) :=
  let* docs := get_documents "warehouse" in for_each tag_id docs.

Section Inventory.
Variable float_of_string : string -> option float.

Definition record_inventory_txn (txn : InventoryTransaction.t) : M dict :=
  let data := InventoryTransaction.model_dump txn in
  (* record transaction *)
  let* txn_id := create_document "inventorytransaction" data in
  (* update stock level *)
  let* h := collection "stocklevel" in
  let* sku := getitem data "product_sku" in
  let* wh := getitem data "warehouse_code" in
  let* lvl := find_one h [("product_sku", Eq sku); ("warehouse_code", Eq wh)] in
  let* change :=
    (let* t1 := getitem data "type" in
     if py_eq_str t1 "in" then getitem data "quantity" else
     let* t2 := getitem data "type" in
     if py_eq_str t2 "out" then
       let* q := getitem data "quantity" in try_ "TypeError" (py_neg q)
     else
     let* t3 := getitem data "type" in
     if py_eq_str t3 "adjustment" then getitem data "quantity"
     else ret (VInt 0)) in
  run
    (if truthy lvl then
       let* l := try_ "AttributeError" lvl in
       let* old := try_ "float()" (py_float float_of_string (dict_get l "on_hand" (VInt 0))) in
       let* c := try_ "float()" (py_float float_of_string change) in
       let new_on_hand := (old + c)%float in
       let* h := collection "stocklevel" in
       let* id := getitem l "_id" in
       let* now := utcnow in
       update_one h [("_id", Eq id)]
                  [("on_hand", VFloat new_on_hand); ("updated_at", now)]
     else
       let* h := collection "stocklevel" in
       let* sku := getitem data "product_sku" in
       let* wh := getitem data "warehouse_code" in
       let* c := try_ "float()" (py_float float_of_string change) in
       let* created := utcnow in
       let* updated := utcnow in
       run insert_one h (list_to_map
             [("product_sku", sku); ("warehouse_code", wh);
              ("on_hand", VFloat c); ("reserved", VFloat 0%float);
              ("created_at", created); ("updated_at", updated)])
       in ret tt)
  in ret (list_to_map [("id", VStr txn_id); ("applied_change", change)]).
End Inventory.

Definition list_stock_levels : M (list dict) :=
  let* docs := get_documents "stocklevel" in for_each tag_id docs.

Definition create_sales_order (order : SalesOrder.t) : M dict :=
  let* h := collection "salesorder" in
  let* found := find_one h [("number", Eq (VStr (SalesOrder.number order)))] in
  if truthy found then raise (HTTPException 400 "Order number already exists") else
  let* new_id := create_document "salesorder" (SalesOrder.model_dump order) in
  ret {["id" := VStr new_id]}.

Definition list_sales_orders : M (list dict) :=
  let* docs := get_documents "salesorder" in for_each tag_id docs.

Definition create_invoice (inv : Invoice.t) : M dict :=
  let* h := collection "invoice" in
  let* found := find_one h [("number", Eq (VStr (Invoice.number inv)))] in
  if truthy found then raise (HTTPException 400 "Invoice number already exists") else
  let* new_id := create_document "invoice" (Invoice.model_dump inv) in
  ret {["id" := VStr new_id]}.

Definition list_invoices : M (list dict) :=
  let* docs := get_documents "invoice" in for_each tag_id docs.

Definition create_payment (pay : Payment.t) : M dict :=
  let* h := collection "payment" in
  let* found := find_one h [("number", Eq (VStr (Payment.number pay)))] in
  if truthy found then raise (HTTPException 400 "Payment number already exists") else
  let* new_id := create_document "payment" (Payment.model_dump pay) in
  ret {["id" := VStr new_id]}.

Definition list_payments : M (list dict) :=
  let* docs := get_documents "payment" in for_each tag_id docs.

Definition dashboard_summary : M dict :=
  run ensure_db in
  let* h := collection "product" in
  let* products := count_documents h [] in
  let* h := collection "customer" in
  let* customers := count_documents h [] in
  let* h := collection "supplier" in
  let* suppliers := count_documents h [] in
  let* h := collection "salesorder" in
  let* open_sales_orders :=
    count_documents h [("status", In_ [VStr "draft"; VStr "confirmed"])] in
  let* h := collection "invoice" in
  let* invoices := count_documents h [] in
  let* h := collection "payment" in
  let* payments := count_documents h [] in
  let* h := collection "stocklevel" in
  let* stock_items := count_documents h [] in
  let totals : dict :=
    list_to_map [("products", products); ("customers", customers);
                 ("suppliers", suppliers); ("open_sales_orders", open_sales_orders);
                 ("invoices", invoices); ("payments", payments);
                 ("stock_items", stock_items)] in
  (* low stock: on_hand <= 0 or missing *)
  let* h := collection "stocklevel" in
  let* cursor := find h [("on_hand", Lte (VInt 0))] in
  let* low_stock := for_each tag_id (limit 10 cursor) in
  ret (list_to_map [("totals", VDict totals); ("low_stock", VList (VDict <$> low_stock))]).

(** The routes, with the schema each one validates its body against. *)
Definition post_products := endpoint Product.valid create_product.
Definition post_customers := endpoint Customer.valid create_customer.
Definition post_suppliers := endpoint Supplier.valid create_supplier.
Definition post_taxes := endpoint Tax.valid create_tax.
Definition post_warehouses := endpoint Warehouse.valid create_warehouse.
Definition post_sales_orders := endpoint SalesOrder.valid create_sales_order.
Definition post_invoices := endpoint Invoice.valid create_invoice.
Definition post_payments := endpoint Payment.valid create_payment.

(** ** Vocabulary of the statements *)

(** The filter [record_inventory_txn] looks a stock level up with. *)
Definition pair_query (sku wh : string) : query :=
  [("product_sku", Eq (VStr sku)); ("warehouse_code", Eq (VStr wh))].

(** The signed quantity change in the spec's words: [+quantity] for [in],
    [-quantity] for [out], [quantity] as it is for [adjustment], [0] for
    [transfer]; [applied_change] is the value reported, [signed_change] the
    double added to [on_hand]. *)
Definition applied_change (txn : InventoryTransaction.t) : value :=
  match InventoryTransaction.type txn with
  | InventoryTransaction.in_ => VFloat (InventoryTransaction.quantity txn)
  | InventoryTransaction.out => VFloat (- InventoryTransaction.quantity txn)%float
  | InventoryTransaction.adjustment => VFloat (InventoryTransaction.quantity txn)
  | InventoryTransaction.transfer => VInt 0
  end.

Definition signed_change (txn : InventoryTransaction.t) : float :=
  match InventoryTransaction.type txn with
  | InventoryTransaction.in_ => InventoryTransaction.quantity txn
  | InventoryTransaction.out => (- InventoryTransaction.quantity txn)%float
  | InventoryTransaction.adjustment => InventoryTransaction.quantity txn
  | InventoryTransaction.transfer => 0%float
  end.

(** The store once the transaction document is recorded. *)
Definition txn_logged (d : Database) (txn : InventoryTransaction.t) : Database :=
  mkDb (<["inventorytransaction" :=
            coll_of d "inventorytransaction" ++
            [mkDoc (next_oid d) (InventoryTransaction.model_dump txn)]]> (collections d))
       (N.succ (next_oid d)).

(** The body of a successful answer of [POST /inventory/transactions]. *)
Definition txn_response (d : Database) (txn : InventoryTransaction.t) : dict :=
  list_to_map [("id", VStr (str_oid (next_oid d))); ("applied_change", applied_change txn)].

(** A stock level after [$set] of [on_hand] and [updated_at]. *)
Definition level_updated (sd : StoredDoc) (on_hand : float) (now : Z) : StoredDoc :=
  mkDoc (doc_id sd)
        (<["updated_at" := VDate now]> (<["on_hand" := VFloat on_hand]> (doc_fields sd))).

(** The stock level inserted for a pair that has none. *)
Definition level_created (sku wh : string) (on_hand : float) (created updated : Z) : dict :=
  list_to_map [("product_sku", VStr sku); ("warehouse_code", VStr wh);
               ("on_hand", VFloat on_hand); ("reserved", VFloat 0%float);
               ("created_at", VDate created); ("updated_at", VDate updated)].

(** What the store guarantees of a collection: identifiers are unique, and
    the driver has not handed out the ones it will generate next. *)
Definition ids_unique (c : list StoredDoc) : Prop := NoDup (doc_id <$> c).

Definition ids_issued (d : Database) (c : list StoredDoc) : Prop :=
  Forall (fun sd => (doc_id sd < next_oid d)%N) c.

(** The stock level found for the pair, if any, holds an [on_hand] that
    [float(..)] accepts (a missing one reads as [0]). *)
Definition level_readable (float_of_string : string -> option float)
    (d : Database) (sku wh : string) : Prop :=
  forall i sd,
    list_find (doc_matches (pair_query sku wh)) (coll_of d "stocklevel") = Some (i, sd) ->
    is_Some (py_float float_of_string (dict_get (as_dict sd) "on_hand" (VInt 0))).

(** The stock levels this system writes: unique identifiers, all of them
    issued, and a double under [on_hand]. *)
Definition stock_ok (d : Database) : Prop :=
  ids_unique (coll_of d "stocklevel") /\
  ids_issued d (coll_of d "stocklevel") /\
  Forall (fun sd => exists f, doc_fields sd !! "on_hand" = Some (VFloat f))
         (coll_of d "stocklevel").

(** The stock levels a world holds (none without a store). *)
Definition stock_levels (w : World) : list StoredDoc :=
  match db w with
  | Some d => coll_of d "stocklevel"
  | None => []
  end.

(** The two filters of the dashboard. *)
Definition low_stock_query : query := [("on_hand", Lte (VInt 0))].

Definition open_orders_query : query :=
  [("status", In_ [VStr "draft"; VStr "confirmed"])].

(** How many documents a collection holds, as [count_documents({})] reports it. *)
Definition doc_count (d : Database) (name : string) : value :=
  VInt (Z.of_nat (length (coll_of d name))).

(** A listed document: [_id] popped, its string put under [id]. *)
Definition tagged (sd : StoredDoc) : dict :=
  <["id" := VStr (str_oid (doc_id sd))]> (delete "_id" (as_dict sd)).

(** ** Sample data: the spec's example scenario *)

Module Sample.
(** No string in the sample store needs parsing. *)
Definition no_parse : string -> option float := fun _ => None.

Definition clock : nat -> Z := fun k => (1700000000 + Z.of_nat k)%Z.

Definition empty_db : Database := mkDb ∅ 0%N.

Definition widget_in : InventoryTransaction.t :=
  InventoryTransaction.mk InventoryTransaction.in_ "WIDGET-1" 100%float "MAIN" None None.

Definition widget_out : InventoryTransaction.t :=
  InventoryTransaction.mk InventoryTransaction.out "WIDGET-1" 30%float "MAIN" None None.

Definition widget_transfer : InventoryTransaction.t :=
  InventoryTransaction.mk InventoryTransaction.transfer "WIDGET-1" 5%float "MAIN" None None.

Definition widget_level : StoredDoc :=
  mkDoc 1%N (level_created "WIDGET-1" "MAIN" 100%float 1700000000 1700000001).

(** The store after [widget_in] was recorded on [empty_db]. *)
Definition stocked_db : Database :=
  mkDb (<["stocklevel" := [widget_level]]>
          (<["inventorytransaction" :=
               [mkDoc 0%N (InventoryTransaction.model_dump widget_in)]]> ∅))
       2%N.

Definition widget_return : InventoryTransaction.t :=
  InventoryTransaction.mk InventoryTransaction.in_ "WIDGET-1" (-5)%float "MAIN" None None.

Definition widget : Product.t :=
  Product.mk "WIDGET-1" "Widget" None "unit" (Some 10%float) (Some 5%float) None true.

Definition main_warehouse : Warehouse.t := Warehouse.mk "Main" "MAIN" None true.

(** A store that already holds the widget and the main warehouse. *)
Definition catalog_db : Database :=
  mkDb (<["product" := [mkDoc 0%N (Product.model_dump widget)]]>
          (<["warehouse" := [mkDoc 1%N (Warehouse.model_dump main_warehouse)]]> ∅))
       2%N.
End Sample.

(** ** Requests in sequence and interleaved *)

Section Requests.
Variable float_of_string : string -> option float.

(** Transactions recorded one after the other, each request run to its end. *)
Definition record_all (ts : list InventoryTransaction.t) : M (list dict) :=
  for_each (record_inventory_txn float_of_string) ts.

(** [record_inventory_txn] up to its last read of the store: the transaction
    is recorded, the stock level looked up and the change computed. *)
Definition txn_read (txn : InventoryTransaction.t) : M (string * option dict * value) :=
  let data := InventoryTransaction.model_dump txn in
  let* txn_id := create_document "inventorytransaction" data in
  let* h := collection "stocklevel" in
  let* sku := getitem data "product_sku" in
  let* wh := getitem data "warehouse_code" in
  let* lvl := find_one h [("product_sku", Eq sku); ("warehouse_code", Eq wh)] in
  let* change :=
    (let* t1 := getitem data "type" in
     if py_eq_str t1 "in" then getitem data "quantity" else
     let* t2 := getitem data "type" in
     if py_eq_str t2 "out" then
       let* q := getitem data "quantity" in try_ "TypeError" (py_neg q)
     else
     let* t3 := getitem data "type" in
     if py_eq_str t3 "adjustment" then getitem data "quantity"
     else ret (VInt 0)) in
  ret (txn_id, lvl, change).

(** The rest of [record_inventory_txn]: the write of the stock level, from
    what was read, and the answer. *)
Definition txn_write (txn : InventoryTransaction.t)
    (seen : string * option dict * value) : M dict :=
  let data := InventoryTransaction.model_dump txn in
  let '(txn_id, lvl, change) := seen in
  run
    (if truthy lvl then
       let* l := try_ "AttributeError" lvl in
       let* old := try_ "float()" (py_float float_of_string (dict_get l "on_hand" (VInt 0))) in
       let* c := try_ "float()" (py_float float_of_string change) in
       let new_on_hand := (old + c)%float in
       let* h := collection "stocklevel" in
       let* id := getitem l "_id" in
       let* now := utcnow in
       update_one h [("_id", Eq id)]
                  [("on_hand", VFloat new_on_hand); ("updated_at", now)]
     else
       let* h := collection "stocklevel" in
       let* sku := getitem data "product_sku" in
       let* wh := getitem data "warehouse_code" in
       let* c := try_ "float()" (py_float float_of_string change) in
       let* created := utcnow in
       let* updated := utcnow in
       run insert_one h (list_to_map
             [("product_sku", sku); ("warehouse_code", wh);
              ("on_hand", VFloat c); ("reserved", VFloat 0%float);
              ("created_at", created); ("updated_at", updated)])
       in ret tt)
  in ret (list_to_map [("id", VStr txn_id); ("applied_change", change)]).

(** Two requests served by two workers, the second reading the store before
    the first has written. *)
Definition interleaved (t1 t2 : InventoryTransaction.t) : M (dict * dict) :=
  let* seen1 := txn_read t1 in
  let* seen2 := txn_read t2 in
  let* answer1 := txn_write t1 seen1 in
  let* answer2 := txn_write t2 seen2 in
  ret (answer1, answer2).
End Requests.

(** ** Business keys of a collection *)

(** The values the documents of a collection hold under [key], in order. *)
Definition key_values (key : string) (c : list StoredDoc) : list (option value) :=
  (fun sd => doc_fields sd !! key) <$> c.

(** Every document holds a string under [key], and no two the same. *)
Definition key_unique (key : string) (c : list StoredDoc) : Prop :=
  NoDup (key_values key c) /\
  Forall (fun sd => exists s, doc_fields sd !! key = Some (VStr s)) c.

(** What a create handler with a business key does on a configured store:
    refuse when the key is found, insert [data] and answer otherwise. *)
Definition keyed_create_result (d : Database) (clock : nat -> Z) (n : nat)
    (name key s detail : string) (data answer : dict) : outcome dict * World :=
  match list_find (doc_matches [(key, Eq (VStr s))]) (coll_of d name) with
  | Some _ => (Raise (HTTPException 400 detail), mkWorld (Some d) clock n)
  | None =>
      (Return answer,
       mkWorld (Some (mkDb (<[name := coll_of d name ++ [mkDoc (next_oid d) data]]>
                              (collections d))
                           (N.succ (next_oid d)))) clock n)
  end.

(** ** More sample data *)

Module Scenario.
(** A stock level whose [on_hand] was set to null by another writer. *)
Definition null_level : StoredDoc :=
  mkDoc 0%N (list_to_map [("product_sku", VStr "WIDGET-1"); ("warehouse_code", VStr "MAIN");
                          ("on_hand", VNone)]).

Definition null_db : Database := mkDb (<["stocklevel" := [null_level]]> ∅) 1%N.

(** A stock level written without [on_hand]. *)
Definition bare_level : StoredDoc :=
  mkDoc 0%N (list_to_map [("product_sku", VStr "WIDGET-1"); ("warehouse_code", VStr "MAIN")]).

Definition bare_db : Database := mkDb (<["stocklevel" := [bare_level]]> ∅) 1%N.

Definition gadget_level : StoredDoc :=
  mkDoc 3%N (level_created "GADGET-7" "MAIN" (-2)%float 1700000000 1700000000).

(** Two pairs in stock, the second one short. *)
Definition two_levels_db : Database :=
  mkDb (<["stocklevel" := [Sample.widget_level; gadget_level]]> ∅) 4%N.

Definition cheap_widget : Product.t :=
  Product.mk "WIDGET-2" "Cheap widget" None "unit" (Some (-1)%float) None None true.

(** Another payload with the sku of [Sample.widget]. *)
Definition widget_again : Product.t :=
  Product.mk "WIDGET-1" "Widget, boxed" None "box" (Some 90%float) None None true.
End Scenario.

(** * Properties *)

(** ** Binary64 arithmetic *)

Lemma Prim2SF_eq (x y : float) : Prim2SF x = Prim2SF y -> x = y.
Proof.
  intros H. rewrite <- (SF2Prim_Prim2SF x), <- (SF2Prim_Prim2SF y). by rewrite H.
Qed.

Lemma SFsub_as_add (x y : spec_float) :
  SFsub prec emax x y = SFadd prec emax x (SFopp y).
Proof.
  destruct x as [sx|sx| |sx mx ex], y as [sy|sy| |sy my ey];
    try reflexivity; try (destruct sx, sy; reflexivity).
Qed.

(** Adding the opposite is subtracting: [x + (-y) == x - y]. *)
Lemma float_add_opp (x y : float) : (x + - y)%float = (x - y)%float.
Proof.
  apply Prim2SF_eq.
  rewrite add_spec, sub_spec, opp_spec. unfold SF64add, SF64sub.
  symmetry. apply SFsub_as_add.
Qed.





(** ** Running the monad *)

Lemma bind_Return {A B} (m : M A) (f : A -> M B) w a w' :
  m w = (Return a, w') -> bind m f w = f a w'.
Proof. unfold bind. by intros ->. Qed.

Lemma bind_Raise {A B} (m : M A) (f : A -> M B) w e w' :
  m w = (Raise e, w') -> bind m f w = (Raise e, w').
Proof. unfold bind. by intros ->. Qed.

Ltac step lem := erewrite bind_Return; [|apply lem].
Ltac step_refl := erewrite bind_Return; [|reflexivity].

Lemma collection_run h d clock n :
  collection h (mkWorld (Some d) clock n) = (Return h, mkWorld (Some d) clock n).
Proof. reflexivity. Qed.

Lemma find_one_run h q d clock n :
  find_one h q (mkWorld (Some d) clock n) =
  (Return (as_dict <$> (snd <$> list_find (doc_matches q) (coll_of d h))),
   mkWorld (Some d) clock n).
Proof. reflexivity. Qed.

Lemma utcnow_run o clock n :
  utcnow (mkWorld o clock n) = (Return (VDate (clock n)), mkWorld o clock (S n)).
Proof. reflexivity. Qed.

Lemma create_document_run name data d clock n :
  create_document name data (mkWorld (Some d) clock n) =
  (Return (str_oid (next_oid d)),
   mkWorld (Some (mkDb (<[name := coll_of d name ++ [mkDoc (next_oid d) data]]> (collections d))
                       (N.succ (next_oid d)))) clock n).
Proof. reflexivity. Qed.

Lemma getitem_id sd w : getitem (as_dict sd) "_id" w = (Return (VOid (doc_id sd)), w).
Proof. unfold getitem, as_dict. by rewrite lookup_insert_eq. Qed.

Lemma as_dict_truthy sd : truthy (Some (as_dict sd)) = true.
Proof.
  unfold truthy, as_dict. rewrite bool_decide_eq_false_2; [done|]. apply insert_non_empty.
Qed.

Lemma truthy_find (c : list StoredDoc) (q : query) :
  truthy (as_dict <$> (snd <$> list_find (doc_matches q) c)) =
  bool_decide (is_Some (list_find (doc_matches q) c)).
Proof.
  destruct (list_find _ c) as [[i sd]|]; cbn [fmap option_fmap option_map snd].
  - rewrite as_dict_truthy. symmetry. by apply bool_decide_eq_true_2.
  - symmetry. apply bool_decide_eq_false_2. by intros [? ?].
Qed.

(** ** Lookups by identifier *)

Lemma id_query_matches o sd : doc_matches [("_id", Eq (VOid o))] sd <-> doc_id sd = o.
Proof.
  unfold doc_matches, matches, as_dict. simpl. rewrite lookup_insert_eq. simpl.
  rewrite andb_true_r, N.eqb_eq. naive_solver.
Qed.

Lemma find_by_id (c : list StoredDoc) i sd :
  ids_unique c -> c !! i = Some sd ->
  list_find (doc_matches [("_id", Eq (VOid (doc_id sd)))]) c = Some (i, sd).
Proof.
  intros Hnd Hi. apply list_find_Some. split; [done|]. split; [by apply id_query_matches|].
  intros j y Hj Hlt Hm. apply id_query_matches in Hm.
  assert (j = i); [|lia].
  eapply NoDup_lookup; [exact Hnd| |]; rewrite list_lookup_fmap.
  - by rewrite Hj.
  - rewrite Hi. simpl. by rewrite Hm.
Qed.

Lemma empty_query_matches sd : doc_matches [] sd.
Proof. reflexivity. Qed.

Lemma filter_empty_query (c : list StoredDoc) : filter (doc_matches []) c = c.
Proof.
  induction c as [|sd c IH]; [done|].
  rewrite filter_cons_True; [by rewrite IH | apply empty_query_matches].
Qed.

(** ** Listing: every document read from the store can be tagged *)

Lemma tag_id_run sd w : tag_id (as_dict sd) w = (Return (tagged sd), w).
Proof. unfold tag_id. step getitem_id. reflexivity. Qed.

Lemma for_each_tag_id (c : list StoredDoc) w :
  for_each tag_id (as_dict <$> c) w = (Return (tagged <$> c), w).
Proof.
  induction c as [|sd c IH]; [done|]. csimpl.
  step tag_id_run. step IH. reflexivity.
Qed.

Lemma tagged_id sd : tagged sd !! "id" = Some (VStr (str_oid (doc_id sd))).
Proof. unfold tagged. by rewrite lookup_insert_eq. Qed.

Lemma tagged_no_oid sd : tagged sd !! "_id" = None.
Proof. unfold tagged. rewrite lookup_insert_ne; [|done]. by rewrite lookup_delete_eq. Qed.

Lemma tagged_field sd k :
  k <> "id" -> k <> "_id" -> tagged sd !! k = doc_fields sd !! k.
Proof.
  intros H1 H2. unfold tagged, as_dict.
  rewrite lookup_insert_ne; [|done]. rewrite lookup_delete_ne; [|done].
  by rewrite lookup_insert_ne.
Qed.

(** ** Recording an inventory transaction *)

Lemma getitem_sku txn w :
  getitem (InventoryTransaction.model_dump txn) "product_sku" w =
  (Return (VStr (InventoryTransaction.product_sku txn)), w).
Proof. reflexivity. Qed.

Lemma getitem_wh txn w :
  getitem (InventoryTransaction.model_dump txn) "warehouse_code" w =
  (Return (VStr (InventoryTransaction.warehouse_code txn)), w).
Proof. reflexivity. Qed.

Lemma change_run txn w :
  (let* t1 := getitem (InventoryTransaction.model_dump txn) "type" in
   if py_eq_str t1 "in" then getitem (InventoryTransaction.model_dump txn) "quantity" else
   let* t2 := getitem (InventoryTransaction.model_dump txn) "type" in
   if py_eq_str t2 "out" then
     let* q := getitem (InventoryTransaction.model_dump txn) "quantity" in
     try_ "TypeError" (py_neg q)
   else
   let* t3 := getitem (InventoryTransaction.model_dump txn) "type" in
   if py_eq_str t3 "adjustment" then getitem (InventoryTransaction.model_dump txn) "quantity"
   else ret (VInt 0)) w = (Return (applied_change txn), w).
Proof. destruct txn as [[] ? ? ? ? ?]; reflexivity. Qed.

Lemma float_of_applied fos txn : py_float fos (applied_change txn) = Some (signed_change txn).
Proof. destruct txn as [[] ? ? ? ? ?]; reflexivity. Qed.

Lemma stock_of_logged d txn : coll_of (txn_logged d txn) "stocklevel" = coll_of d "stocklevel".
Proof. unfold coll_of, txn_logged. simpl. by rewrite lookup_insert_ne. Qed.

Section RecordInventoryTxn.
Variable fos : string -> option float.
Variables (txn : InventoryTransaction.t) (d : Database) (clock : nat -> Z) (n : nat).

Let stock := coll_of d "stocklevel".
Let q := pair_query (InventoryTransaction.product_sku txn)
                    (InventoryTransaction.warehouse_code txn).

(** A stock level exists and reads as [old]: it is updated in place. *)
Lemma record_found i sd old :
  list_find (doc_matches q) stock = Some (i, sd) ->
  ids_unique stock ->
  py_float fos (dict_get (as_dict sd) "on_hand" (VInt 0)) = Some old ->
  record_inventory_txn fos txn (mkWorld (Some d) clock n) =
  (Return (txn_response d txn),
   mkWorld (Some (set_coll (txn_logged d txn) "stocklevel"
             (<[i := level_updated sd (old + signed_change txn) (clock n)]> stock)))
           clock (S n)).
Proof.
  intros Hf Hnd Hold.
  unfold record_inventory_txn. cbv zeta.
  step create_document_run. fold (txn_logged d txn).
  step collection_run. step getitem_sku. step getitem_wh.
  step find_one_run. rewrite stock_of_logged.
  change (list_find _ _) with (list_find (doc_matches q) stock). rewrite Hf.
  cbn [fmap option_fmap option_map snd].
  step change_run. rewrite as_dict_truthy.
  erewrite bind_Return; [reflexivity|].
  step_refl. rewrite Hold. step_refl. rewrite float_of_applied. step_refl.
  step collection_run. step getitem_id. step utcnow_run.
  unfold update_one, with_db. cbn [db wall reads]. rewrite stock_of_logged.
  fold stock. rewrite (find_by_id stock i sd Hnd); [reflexivity|].
  apply list_find_Some in Hf. tauto.
Qed.

(** A stock level exists but its [on_hand] is not a number: the request
    dies after the transaction document was recorded. *)
Lemma record_unreadable i sd :
  list_find (doc_matches q) stock = Some (i, sd) ->
  py_float fos (dict_get (as_dict sd) "on_hand" (VInt 0)) = None ->
  record_inventory_txn fos txn (mkWorld (Some d) clock n) =
  (Raise (Uncaught "float()"), mkWorld (Some (txn_logged d txn)) clock n).
Proof.
  intros Hf Hold.
  unfold record_inventory_txn. cbv zeta.
  step create_document_run. fold (txn_logged d txn).
  step collection_run. step getitem_sku. step getitem_wh.
  step find_one_run. rewrite stock_of_logged.
  change (list_find _ _) with (list_find (doc_matches q) stock). rewrite Hf.
  cbn [fmap option_fmap option_map snd].
  step change_run. rewrite as_dict_truthy.
  erewrite bind_Raise; [reflexivity|].
  step_refl. rewrite Hold. reflexivity.
Qed.

(** No stock level for the pair: one is inserted. *)
Lemma record_fresh :
  list_find (doc_matches q) stock = None ->
  record_inventory_txn fos txn (mkWorld (Some d) clock n) =
  (Return (txn_response d txn),
   mkWorld (Some (mkDb
             (<["stocklevel" :=
                  stock ++ [mkDoc (N.succ (next_oid d))
                              (level_created (InventoryTransaction.product_sku txn)
                                 (InventoryTransaction.warehouse_code txn)
                                 (signed_change txn) (clock n) (clock (S n)))]]>
                (collections (txn_logged d txn)))
             (N.succ (N.succ (next_oid d)))))
           clock (S (S n))).
Proof.
  intros Hf.
  unfold record_inventory_txn. cbv zeta.
  step create_document_run. fold (txn_logged d txn).
  step collection_run. step getitem_sku. step getitem_wh.
  step find_one_run. rewrite stock_of_logged.
  change (list_find _ _) with (list_find (doc_matches q) stock). rewrite Hf.
  cbn [fmap option_fmap option_map snd truthy].
  step change_run.
  erewrite bind_Return; [reflexivity|].
  step collection_run. step getitem_sku. step getitem_wh.
  rewrite float_of_applied. step_refl. step utcnow_run. step utcnow_run.
  unfold insert_one at 1, with_db, bind. cbn [db wall reads next_oid txn_logged].
  rewrite stock_of_logged. reflexivity.
Qed.
End RecordInventoryTxn.

Lemma update_one_run h q sets d clock n :
  update_one h q sets (mkWorld (Some d) clock n) =
  (Return tt,
   mkWorld (Some match list_find (doc_matches q) (coll_of d h) with
                 | Some (i, sd) => set_coll d h (<[i := apply_set sets sd]> (coll_of d h))
                 | None => d
                 end) clock n).
Proof.
  unfold update_one, with_db. cbn [db wall reads].
  by destruct (list_find _ _) as [[i sd]|].
Qed.

Lemma logged_of_set_stock d txn c :
  coll_of (set_coll (txn_logged d txn) "stocklevel" c) "inventorytransaction" =
  coll_of d "inventorytransaction" ++ [mkDoc (next_oid d) (InventoryTransaction.model_dump txn)].
Proof.
  unfold coll_of, set_coll, txn_logged. cbn [collections].
  rewrite lookup_insert_ne; [|done]. by rewrite lookup_insert_eq.
Qed.

Lemma logged_of_logged d txn :
  coll_of (txn_logged d txn) "inventorytransaction" =
  coll_of d "inventorytransaction" ++ [mkDoc (next_oid d) (InventoryTransaction.model_dump txn)].
Proof. unfold coll_of at 1, txn_logged. cbn [collections]. by rewrite lookup_insert_eq. Qed.


Lemma created_matches sku wh o c t1 t2 :
  doc_matches (pair_query sku wh) (mkDoc o (level_created sku wh c t1 t2)).
Proof.
  unfold doc_matches, matches, pair_query. cbn [forallb fst snd].
  change (as_dict (mkDoc o (level_created sku wh c t1 t2)) !! "product_sku")
    with (Some (VStr sku)).
  change (as_dict (mkDoc o (level_created sku wh c t1 t2)) !! "warehouse_code")
    with (Some (VStr wh)).
  simpl. by rewrite !String.eqb_refl.
Qed.

Lemma find_appended (c : list StoredDoc) q sd :
  list_find (doc_matches q) c = None -> doc_matches q sd ->
  list_find (doc_matches q) (c ++ [sd]) = Some (length c, sd).
Proof.
  intros Hnone Hm. rewrite (list_find_app_r _ _ _ Hnone). simpl.
  by rewrite decide_True.
Qed.

Lemma ids_unique_snoc d (c : list StoredDoc) o fields :
  ids_unique c -> ids_issued d c -> (next_oid d <= o)%N ->
  ids_unique (c ++ [mkDoc o fields]).
Proof.
  unfold ids_unique, ids_issued. intros Hnd Hall Hle.
  rewrite fmap_app. apply NoDup_app. split; [done|]. split; [|apply NoDup_singleton].
  intros x Hx Hx'. apply list_elem_of_singleton in Hx'. simpl in Hx'. subst x.
  apply list_elem_of_fmap in Hx as (sd & Heq & Hin).
  rewrite Forall_forall in Hall. specialize (Hall sd Hin). lia.
Qed.

Lemma stock_of_set_stock d c : coll_of (set_coll d "stocklevel" c) "stocklevel" = c.
Proof. unfold coll_of, set_coll. cbn [collections]. by rewrite lookup_insert_eq. Qed.

(** ** Claims on [POST /inventory/transactions] *)

(** C1 — with [c] the signed change of a valid transaction: a stock level
    already there for the pair gets [on_hand] set to its old value plus [c]
    and [updated_at] set to the clock's reading; with none, a stock level is
    inserted with [on_hand = c] and [reserved = 0].  So an [in] of [Q] on a
    pair without stock level leaves [on_hand == Q], and an [out] of [R] right
    after leaves [on_hand == Q - R]. *)
Theorem C1_stock_level_upsert (fos : string -> option float) :
  (forall txn d clock n i sd old,
      let stock := coll_of d "stocklevel" in
      list_find (doc_matches (pair_query (InventoryTransaction.product_sku txn)
                                (InventoryTransaction.warehouse_code txn))) stock
        = Some (i, sd) ->
      ids_unique stock ->
      py_float fos (dict_get (as_dict sd) "on_hand" (VInt 0)) = Some old ->
      exists d',
        record_inventory_txn fos txn (mkWorld (Some d) clock n) =
          (Return (txn_response d txn), mkWorld (Some d') clock (S n)) /\
        coll_of d' "stocklevel" =
          <[i := mkDoc (doc_id sd)
                   (<["updated_at" := VDate (clock n)]>
                      (<["on_hand" := VFloat (old + signed_change txn)]> (doc_fields sd)))]>
            stock) /\
  (forall txn d clock n,
      let stock := coll_of d "stocklevel" in
      list_find (doc_matches (pair_query (InventoryTransaction.product_sku txn)
                                (InventoryTransaction.warehouse_code txn))) stock = None ->
      exists d' o lvl,
        record_inventory_txn fos txn (mkWorld (Some d) clock n) =
          (Return (txn_response d txn), mkWorld (Some d') clock (S (S n))) /\
        coll_of d' "stocklevel" = stock ++ [mkDoc o lvl] /\
        lvl !! "product_sku" = Some (VStr (InventoryTransaction.product_sku txn)) /\
        lvl !! "warehouse_code" = Some (VStr (InventoryTransaction.warehouse_code txn)) /\
        lvl !! "on_hand" = Some (VFloat (signed_change txn)) /\
        lvl !! "reserved" = Some (VFloat 0%float)) /\
  (forall sku wh Q R ref1 notes1 ref2 notes2 d clock n,
      let stock := coll_of d "stocklevel" in
      let t_in := InventoryTransaction.mk InventoryTransaction.in_ sku Q wh ref1 notes1 in
      let t_out := InventoryTransaction.mk InventoryTransaction.out sku R wh ref2 notes2 in
      ids_unique stock -> ids_issued d stock ->
      list_find (doc_matches (pair_query sku wh)) stock = None ->
      exists d1 d2 o lvl1 lvl2,
        record_inventory_txn fos t_in (mkWorld (Some d) clock n) =
          (Return (txn_response d t_in), mkWorld (Some d1) clock (S (S n))) /\
        coll_of d1 "stocklevel" = stock ++ [mkDoc o lvl1] /\
        lvl1 !! "on_hand" = Some (VFloat Q) /\
        record_inventory_txn fos t_out (mkWorld (Some d1) clock (S (S n))) =
          (Return (txn_response d1 t_out), mkWorld (Some d2) clock (S (S (S n)))) /\
        coll_of d2 "stocklevel" = stock ++ [mkDoc o lvl2] /\
        lvl2 !! "on_hand" = Some (VFloat (Q - R)%float)).
Proof.
  split; [|split].
  - intros txn d clock n i sd old stock Hf Hnd Hold.
    eexists. split; [by eapply record_found|]. apply stock_of_set_stock.
  - intros txn d clock n stock Hf.
    eexists _, _, _. split; [by apply record_fresh|].
    split; [unfold coll_of at 1; cbn [collections]; by rewrite lookup_insert_eq|].
    by repeat split.
  - intros sku wh Q R ref1 notes1 ref2 notes2 d clock n stock t_in t_out Hnd Hiss Hf.
    set (new := mkDoc (N.succ (next_oid d)) (level_created sku wh Q (clock n) (clock (S n)))).
    set (d1 := mkDb (<["stocklevel" := stock ++ [new]]> (collections (txn_logged d t_in)))
                    (N.succ (N.succ (next_oid d)))).
    assert (Hs1 : coll_of d1 "stocklevel" = stock ++ [new]).
    { unfold coll_of at 1, d1. cbn [collections]. by rewrite lookup_insert_eq. }
    assert (Hf1 : list_find (doc_matches (pair_query (InventoryTransaction.product_sku t_out)
                     (InventoryTransaction.warehouse_code t_out))) (coll_of d1 "stocklevel")
                  = Some (length stock, new)).
    { rewrite Hs1. apply find_appended; [done|]. apply created_matches. }
    assert (Hnd1 : ids_unique (coll_of d1 "stocklevel")).
    { rewrite Hs1. apply (ids_unique_snoc d); [done|done|lia]. }
    exists d1, (set_coll (txn_logged d1 t_out) "stocklevel"
                 (<[length stock := level_updated new (Q + signed_change t_out)
                                      (clock (S (S n)))]> (coll_of d1 "stocklevel"))),
      (doc_id new), (doc_fields new),
      (doc_fields (level_updated new (Q + signed_change t_out) (clock (S (S n))))).
    split; [by apply (record_fresh fos t_in d clock n)|].
    split; [done|]. split; [done|].
    split; [by apply (record_found fos t_out d1 clock (S (S n)) (length stock) new Q)|].
    split.
    + rewrite stock_of_set_stock, Hs1.
      rewrite insert_app_r_alt; [|done]. by rewrite Nat.sub_diag.
    + unfold level_updated. cbn [doc_fields].
      rewrite lookup_insert_ne; [|done]. rewrite lookup_insert_eq.
      unfold signed_change, t_out. cbn [InventoryTransaction.type InventoryTransaction.quantity].
      by rewrite float_add_opp.
Qed.

Lemma C1_stock_level_upsert_witness :
  (exists d',
      record_inventory_txn Sample.no_parse Sample.widget_out
        (mkWorld (Some Sample.stocked_db) Sample.clock 2) =
        (Return (txn_response Sample.stocked_db Sample.widget_out),
         mkWorld (Some d') Sample.clock 3) /\
      coll_of d' "stocklevel" =
        [mkDoc 1%N (<["updated_at" := VDate 1700000002]>
                      (<["on_hand" := VFloat 70%float]> (doc_fields Sample.widget_level)))]) /\
  (exists d' o lvl,
      record_inventory_txn Sample.no_parse Sample.widget_in
        (mkWorld (Some Sample.empty_db) Sample.clock 0) =
        (Return (txn_response Sample.empty_db Sample.widget_in),
         mkWorld (Some d') Sample.clock 2) /\
      coll_of d' "stocklevel" = [mkDoc o lvl] /\
      lvl !! "on_hand" = Some (VFloat 100%float) /\
      lvl !! "reserved" = Some (VFloat 0%float)) /\
  (exists d1 d2 o lvl1 lvl2,
      record_inventory_txn Sample.no_parse Sample.widget_in
        (mkWorld (Some Sample.empty_db) Sample.clock 0) =
        (Return (txn_response Sample.empty_db Sample.widget_in),
         mkWorld (Some d1) Sample.clock 2) /\
      coll_of d1 "stocklevel" = [mkDoc o lvl1] /\
      lvl1 !! "on_hand" = Some (VFloat 100%float) /\
      record_inventory_txn Sample.no_parse Sample.widget_out
        (mkWorld (Some d1) Sample.clock 2) =
        (Return (txn_response d1 Sample.widget_out), mkWorld (Some d2) Sample.clock 3) /\
      coll_of d2 "stocklevel" = [mkDoc o lvl2] /\
      lvl2 !! "on_hand" = Some (VFloat 70%float)).
Proof.
  destruct (C1_stock_level_upsert Sample.no_parse) as (Hupd & Hins & Hseq).
  split; [|split].
  - destruct (Hupd Sample.widget_out Sample.stocked_db Sample.clock 2 0 Sample.widget_level
                100%float) as (d' & Hrun & Hstock).
    + reflexivity.
    + apply NoDup_singleton.
    + reflexivity.
    + exists d'. split; [exact Hrun|]. rewrite Hstock. reflexivity.
  - destruct (Hins Sample.widget_in Sample.empty_db Sample.clock 0)
      as (d' & o & lvl & Hrun & Hstock & _ & _ & Hon & Hres).
    + reflexivity.
    + exists d', o, lvl. repeat split; assumption.
  - destruct (Hseq "WIDGET-1" "MAIN" 100%float 30%float None None None None
                Sample.empty_db Sample.clock 0)
      as (d1 & d2 & o & lvl1 & lvl2 & H1 & H2 & H3 & H4 & H5 & H6).
    + apply NoDup_nil_2.
    + apply Forall_nil_2.
    + reflexivity.
    + exists d1, d2, o, lvl1, lvl2. repeat split; assumption.
Defined.


Lemma response_change d txn : txn_response d txn !! "applied_change" = Some (applied_change txn).
Proof. reflexivity. Qed.



(** Adding [0.0] gives the number back, negative zero apart (it becomes
    [+0.0], the same quantity). *)
Lemma float_add_zero (x : float) : x <> neg_zero -> (x + 0)%float = x.
Proof.
  intros Hx. apply Prim2SF_eq. rewrite add_spec.
  change (Prim2SF 0%float) with (S754_zero false).
  destruct (Prim2SF x) as [s|s| |s m e] eqn:E; try reflexivity.
  destruct s; [|reflexivity].
  exfalso. apply Hx. rewrite <- (SF2Prim_Prim2SF x), E. reflexivity.
Qed.

(** C3, as the code has it — a [transfer] reports [applied_change == 0]
    and goes through the same upsert with a change of zero: a stock level
    found for the pair has [on_hand] rewritten to its old value plus [0.0]
    and [updated_at] refreshed, every other stock level staying as it was;
    with none for the pair, a stock level with [on_hand = 0] and
    [reserved = 0] is inserted after the existing ones. *)
Theorem C3_transfer_upsert (fos : string -> option float)
    (txn : InventoryTransaction.t) (d : Database) (clock : nat -> Z) (n : nat) :
  InventoryTransaction.type txn = InventoryTransaction.transfer ->
  let stock := coll_of d "stocklevel" in
  let q := pair_query (InventoryTransaction.product_sku txn)
                      (InventoryTransaction.warehouse_code txn) in
  let res := record_inventory_txn fos txn (mkWorld (Some d) clock n) in
  (forall i sd old,
      list_find (doc_matches q) stock = Some (i, sd) ->
      ids_unique stock ->
      py_float fos (dict_get (as_dict sd) "on_hand" (VInt 0)) = Some old ->
      exists resp d',
        res = (Return resp, mkWorld (Some d') clock (S n)) /\
        resp !! "applied_change" = Some (VInt 0) /\
        length (coll_of d' "stocklevel") = length stock /\
        coll_of d' "stocklevel" !! i =
          Some (mkDoc (doc_id sd)
                  (<["updated_at" := VDate (clock n)]>
                     (<["on_hand" := VFloat (old + 0)%float]> (doc_fields sd)))) /\
        (old <> neg_zero -> (old + 0)%float = old) /\
        (forall j, j <> i -> coll_of d' "stocklevel" !! j = stock !! j)) /\
  (list_find (doc_matches q) stock = None ->
   exists resp d' o lvl,
     res = (Return resp, mkWorld (Some d') clock (S (S n))) /\
     resp !! "applied_change" = Some (VInt 0) /\
     coll_of d' "stocklevel" = stock ++ [mkDoc o lvl] /\
     lvl !! "on_hand" = Some (VFloat 0%float) /\
     lvl !! "reserved" = Some (VFloat 0%float)).
Proof.
  intros Htype stock q res.
  assert (Hc : signed_change txn = 0%float) by (unfold signed_change; by rewrite Htype).
  assert (Ha : applied_change txn = VInt 0) by (unfold applied_change; by rewrite Htype).
  split.
  - intros i sd old Hf Hnd Hold. unfold res.
    rewrite (record_found fos txn d clock n i sd old Hf Hnd Hold).
    apply list_find_Some in Hf as (Hi & _).
    eexists _, _. split; [reflexivity|].
    split; [by rewrite response_change, Ha|].
    rewrite stock_of_set_stock, Hc.
    split; [apply length_insert|].
    split; [apply list_lookup_insert_eq; by eapply lookup_lt_Some|].
    split; [apply float_add_zero|].
    intros j Hj. by apply list_lookup_insert_ne.
  - intros Hf. unfold res. rewrite (record_fresh fos txn d clock n Hf).
    eexists _, _, _, _. split; [reflexivity|].
    split; [by rewrite response_change, Ha|].
    split; [unfold coll_of at 1; cbn [collections]; by rewrite lookup_insert_eq|].
    rewrite Hc. by split.
Qed.

Lemma C3_transfer_upsert_witness :
  (exists resp d',
      record_inventory_txn Sample.no_parse Sample.widget_transfer
        (mkWorld (Some Sample.stocked_db) Sample.clock 2) =
        (Return resp, mkWorld (Some d') Sample.clock 3) /\
      resp !! "applied_change" = Some (VInt 0) /\
      coll_of d' "stocklevel" !! 0 =
        Some (mkDoc 1%N (<["updated_at" := VDate 1700000002]>
                           (<["on_hand" := VFloat 100%float]>
                              (doc_fields Sample.widget_level))))) /\
  (exists resp d' o lvl,
      record_inventory_txn Sample.no_parse Sample.widget_transfer
        (mkWorld (Some Sample.empty_db) Sample.clock 0) =
        (Return resp, mkWorld (Some d') Sample.clock 2) /\
      resp !! "applied_change" = Some (VInt 0) /\
      coll_of d' "stocklevel" = [mkDoc o lvl] /\
      lvl !! "on_hand" = Some (VFloat 0%float)).
Proof.
  split.
  - destruct (proj1 (C3_transfer_upsert Sample.no_parse Sample.widget_transfer
                       Sample.stocked_db Sample.clock 2 eq_refl)
                    0 Sample.widget_level 100%float)
      as (resp & d' & Hrun & Hresp & _ & Hlvl & _ & _).
    + reflexivity.
    + apply NoDup_singleton.
    + reflexivity.
    + exists resp, d'. repeat split; assumption.
  - destruct (proj2 (C3_transfer_upsert Sample.no_parse Sample.widget_transfer
                       Sample.empty_db Sample.clock 0 eq_refl))
      as (resp & d' & o & lvl & Hrun & Hresp & Hstock & Hon & _).
    + reflexivity.
    + exists resp, d', o, lvl. repeat split; assumption.
Defined.

(** C3, as it is written, fails: on a store without stock level a [transfer]
    creates one, and on a store with one for the pair it moves that
    document's [updated_at]. *)
Lemma C3_counterexample :
  let before := mkWorld (Some Sample.empty_db) Sample.clock 0 in
  let before' := mkWorld (Some Sample.stocked_db) Sample.clock 2 in
  (stock_levels before = [] /\
   stock_levels (snd (record_inventory_txn Sample.no_parse Sample.widget_transfer before)) =
     [mkDoc 1%N (level_created "WIDGET-1" "MAIN" 0%float 1700000000 1700000001)]) /\
  (stock_levels before' =
     [mkDoc 1%N (level_created "WIDGET-1" "MAIN" 100%float 1700000000 1700000001)] /\
   stock_levels (snd (record_inventory_txn Sample.no_parse Sample.widget_transfer before')) =
     [mkDoc 1%N (level_created "WIDGET-1" "MAIN" 100%float 1700000000 1700000002)]).
Proof. repeat split; vm_compute; reflexivity. Qed.





(** ** Business keys *)

Lemma key_query_matches k s sd :
  k <> "_id" -> doc_fields sd !! k = Some (VStr s) -> doc_matches [(k, Eq (VStr s))] sd.
Proof.
  intros Hk Hs. unfold doc_matches, matches, as_dict. cbn [forallb fst snd].
  rewrite lookup_insert_ne; [|done]. rewrite Hs. simpl. by rewrite String.eqb_refl.
Qed.

Lemma key_found k s (c : list StoredDoc) :
  k <> "_id" ->
  (exists sd, sd ∈ c /\ doc_fields sd !! k = Some (VStr s)) ->
  truthy (as_dict <$> (snd <$> list_find (doc_matches [(k, Eq (VStr s))]) c)) = true.
Proof.
  intros Hk (sd & Hin & Hs). rewrite truthy_find. apply bool_decide_eq_true_2.
  eapply list_find_elem_of; [exact Hin|]. by apply key_query_matches.
Qed.


Lemma getitem_product_sku p w :
  getitem (Product.model_dump p) "sku" w = (Return (VStr (Product.sku p)), w).
Proof. reflexivity. Qed.

Lemma getitem_warehouse_code p w :
  getitem (Warehouse.model_dump p) "code" w = (Return (VStr (Warehouse.code p)), w).
Proof. reflexivity. Qed.

(** C4 — creating an entity whose business key is already held by a
    document of its collection is refused with status 400 before anything is
    inserted: the store is left as it was.  So for [Product.sku],
    [Warehouse.code], [SalesOrder.number], [Invoice.number] and
    [Payment.number]. *)
Theorem C4_duplicate_key_rejected (d : Database) (clock : nat -> Z) (n : nat) :
  let w := mkWorld (Some d) clock n in
  let held (name key s : string) :=
    exists sd, sd ∈ coll_of d name /\ doc_fields sd !! key = Some (VStr s) in
  (forall p, held "product" "sku" (Product.sku p) ->
             create_product p w = (Raise (HTTPException 400 "SKU already exists"), w)) /\
  (forall p, held "warehouse" "code" (Warehouse.code p) ->
             create_warehouse p w =
               (Raise (HTTPException 400 "Warehouse code already exists"), w)) /\
  (forall p, held "salesorder" "number" (SalesOrder.number p) ->
             create_sales_order p w =
               (Raise (HTTPException 400 "Order number already exists"), w)) /\
  (forall p, held "invoice" "number" (Invoice.number p) ->
             create_invoice p w =
               (Raise (HTTPException 400 "Invoice number already exists"), w)) /\
  (forall p, held "payment" "number" (Payment.number p) ->
             create_payment p w =
               (Raise (HTTPException 400 "Payment number already exists"), w)).
Proof.
  intros w held. repeat split; intros p Hheld.
  - unfold create_product. cbv zeta. step collection_run. step getitem_product_sku.
    step find_one_run. by rewrite key_found.
  - unfold create_warehouse. cbv zeta. step collection_run. step getitem_warehouse_code.
    step find_one_run. by rewrite key_found.
  - unfold create_sales_order. step collection_run.
    step find_one_run. by rewrite key_found.
  - unfold create_invoice. step collection_run.
    step find_one_run. by rewrite key_found.
  - unfold create_payment. step collection_run.
    step find_one_run. by rewrite key_found.
Qed.

Lemma C4_duplicate_key_rejected_witness :
  let w := mkWorld (Some Sample.catalog_db) Sample.clock 0 in
  create_product Sample.widget w = (Raise (HTTPException 400 "SKU already exists"), w) /\
  create_warehouse Sample.main_warehouse w =
    (Raise (HTTPException 400 "Warehouse code already exists"), w).
Proof.
  destruct (C4_duplicate_key_rejected Sample.catalog_db Sample.clock 0)
    as (Hproduct & Hwarehouse & _).
  split.
  - apply Hproduct. exists (mkDoc 0%N (Product.model_dump Sample.widget)).
    split; [apply list_elem_of_here | reflexivity].
  - apply Hwarehouse. exists (mkDoc 1%N (Warehouse.model_dump Sample.main_warehouse)).
    split; [apply list_elem_of_here | reflexivity].
Defined.

(** ** No store configured *)

(** C9 — without a database handle every handler that touches the store
    fails with status 500 and detail "Database not configured", and nothing
    is inserted: there is still no store afterwards. *)
Theorem C9_store_not_configured (fos : string -> option float) (clock : nat -> Z) (n : nat) :
  let w := mkWorld None clock n in
  let failed {A} (handler : M A) :=
    handler w = (Raise (HTTPException 500 "Database not configured"), w) in
  (forall p, failed (create_product p)) /\
  (forall p, failed (create_customer p)) /\
  (forall p, failed (create_supplier p)) /\
  (forall p, failed (create_tax p)) /\
  (forall p, failed (create_warehouse p)) /\
  (forall p, failed (record_inventory_txn fos p)) /\
  (forall p, failed (create_sales_order p)) /\
  (forall p, failed (create_invoice p)) /\
  (forall p, failed (create_payment p)) /\
  failed list_products /\ failed list_customers /\ failed list_suppliers /\
  failed list_taxes /\ failed list_warehouses /\ failed list_stock_levels /\
  failed list_sales_orders /\ failed list_invoices /\ failed list_payments /\
  failed dashboard_summary.
Proof. cbv zeta. repeat split; intros; reflexivity. Qed.

(** ** Creating and listing products *)

Lemma get_documents_run name d clock n :
  get_documents name (mkWorld (Some d) clock n) =
  (Return (as_dict <$> coll_of d name), mkWorld (Some d) clock n).
Proof.
  unfold get_documents, find, with_db. cbn [db wall reads].
  by rewrite filter_empty_query.
Qed.

Lemma listing_run name d clock n :
  (let* docs := get_documents name in for_each tag_id docs) (mkWorld (Some d) clock n) =
  (Return (tagged <$> coll_of d name), mkWorld (Some d) clock n).
Proof. step get_documents_run. apply for_each_tag_id. Qed.



(** ** Dashboard *)

Lemma count_documents_run h q d clock n :
  count_documents h q (mkWorld (Some d) clock n) =
  (Return (VInt (Z.of_nat (length (filter (doc_matches q) (coll_of d h))))),
   mkWorld (Some d) clock n).
Proof. reflexivity. Qed.

Lemma count_all_run h d clock n :
  count_documents h [] (mkWorld (Some d) clock n) =
  (Return (doc_count d h), mkWorld (Some d) clock n).
Proof. rewrite count_documents_run. by rewrite filter_empty_query. Qed.

Lemma find_run h q d clock n :
  find h q (mkWorld (Some d) clock n) =
  (Return (as_dict <$> filter (doc_matches q) (coll_of d h)), mkWorld (Some d) clock n).
Proof. reflexivity. Qed.

Lemma dashboard_run d clock n :
  dashboard_summary (mkWorld (Some d) clock n) =
  (Return (list_to_map
     [("totals",
       VDict (list_to_map
         [("products", doc_count d "product"); ("customers", doc_count d "customer");
          ("suppliers", doc_count d "supplier");
          ("open_sales_orders",
           VInt (Z.of_nat (length (filter (doc_matches open_orders_query)
                                          (coll_of d "salesorder")))));
          ("invoices", doc_count d "invoice"); ("payments", doc_count d "payment");
          ("stock_items", doc_count d "stocklevel")]));
      ("low_stock",
       VList (VDict <$> (tagged <$> take 10 (filter (doc_matches low_stock_query)
                                                    (coll_of d "stocklevel")))))]),
   mkWorld (Some d) clock n).
Proof.
  unfold dashboard_summary. step_refl.
  step collection_run. step count_all_run.
  step collection_run. step count_all_run.
  step collection_run. step count_all_run.
  step collection_run. step count_documents_run.
  step collection_run. step count_all_run.
  step collection_run. step count_all_run.
  step collection_run. step count_all_run.
  cbv zeta. step collection_run. step find_run.
  unfold limit. rewrite <- fmap_take. step for_each_tag_id. reflexivity.
Qed.

Lemma lte_zero_float f :
  cond_holds (Lte (VInt 0)) (Some (VFloat f)) = (f <=? 0)%float.
Proof. reflexivity. Qed.

Lemma lte_zero_int z : cond_holds (Lte (VInt 0)) (Some (VInt z)) = (z <=? 0)%Z.
Proof. reflexivity. Qed.

(** C6 — [low_stock] of [GET /dashboard] has at most ten entries; each is
    a stock level of the store that has an [on_hand], one the store compared
    as at most zero, listed with its identifier as a string under [id]. *)
Theorem C6_low_stock (d : Database) (clock : nat -> Z) (n : nat) :
  let w := mkWorld (Some d) clock n in
  exists resp low,
    dashboard_summary w = (Return resp, w) /\
    resp !! "low_stock" = Some (VList (VDict <$> low)) /\
    length low <= 10 /\
    forall x, x ∈ low ->
      (exists sd, sd ∈ coll_of d "stocklevel" /\
                  x !! "id" = Some (VStr (str_oid (doc_id sd))) /\
                  x !! "_id" = None /\
                  x !! "on_hand" = doc_fields sd !! "on_hand") /\
      cond_holds (Lte (VInt 0)) (x !! "on_hand") = true /\
      is_Some (x !! "on_hand") /\
      (forall f, x !! "on_hand" = Some (VFloat f) -> (f <=? 0)%float = true) /\
      (forall z, x !! "on_hand" = Some (VInt z) -> (z <= 0)%Z).
Proof.
  intros w. eexists _, _. split; [apply dashboard_run|].
  split; [reflexivity|]. split.
  - rewrite length_fmap, length_take. lia.
  - intros x Hx. apply list_elem_of_fmap in Hx as (sd & -> & Hsd).
    apply subseteq_take in Hsd. apply list_elem_of_filter in Hsd as (Hm & Hin).
    assert (Hon : tagged sd !! "on_hand" = doc_fields sd !! "on_hand")
      by (by apply tagged_field).
    assert (Hle : cond_holds (Lte (VInt 0)) (tagged sd !! "on_hand") = true).
    { rewrite Hon. unfold doc_matches, matches, low_stock_query, as_dict in Hm.
      cbn [forallb fst snd] in Hm. rewrite lookup_insert_ne in Hm; [|done].
      by apply andb_true_iff in Hm as (Hm & _). }
    split; [|split; [exact Hle|split; [|split]]].
    + exists sd. split; [done|]. split; [apply tagged_id|]. split; [apply tagged_no_oid|done].
    + by destruct (tagged sd !! "on_hand").
    + intros f Hf. rewrite Hf in Hle. by rewrite lte_zero_float in Hle.
    + intros z Hz. rewrite Hz in Hle. rewrite lte_zero_int in Hle. lia.
Qed.

Lemma open_order_matches sd s :
  doc_fields sd !! "status" = Some (VStr s) ->
  doc_matches open_orders_query sd <-> s = "draft" \/ s = "confirmed".
Proof.
  intros Hs. unfold doc_matches, matches, open_orders_query, as_dict.
  cbn [forallb fst snd]. rewrite lookup_insert_ne; [|done]. rewrite Hs.
  cbn [cond_holds field_matches existsb scalar_eq].
  rewrite andb_true_r, orb_false_r, orb_true_iff, !String.eqb_eq.
  intuition congruence.
Qed.

(** C7 — every entry of [totals] is the number of documents its collection
    holds when [GET /dashboard] runs, and [open_sales_orders] counts the
    sales orders the status filter keeps: those whose status is [draft] or
    [confirmed], and no other. *)
Theorem C7_dashboard_totals (d : Database) (clock : nat -> Z) (n : nat) :
  let w := mkWorld (Some d) clock n in
  let count (name : string) := VInt (Z.of_nat (length (coll_of d name))) in
  exists resp totals,
    dashboard_summary w = (Return resp, w) /\
    resp !! "totals" = Some (VDict totals) /\
    totals !! "products" = Some (count "product") /\
    totals !! "customers" = Some (count "customer") /\
    totals !! "suppliers" = Some (count "supplier") /\
    totals !! "invoices" = Some (count "invoice") /\
    totals !! "payments" = Some (count "payment") /\
    totals !! "stock_items" = Some (count "stocklevel") /\
    totals !! "open_sales_orders" =
      Some (VInt (Z.of_nat (length (filter (doc_matches open_orders_query)
                                           (coll_of d "salesorder"))))) /\
    (forall sd s, doc_fields sd !! "status" = Some (VStr s) ->
                  doc_matches open_orders_query sd <-> s = "draft" \/ s = "confirmed").
Proof.
  intros w count. eexists _, _. split; [apply dashboard_run|].
  split; [reflexivity|]. repeat (split; [reflexivity|]).
  apply open_order_matches.
Qed.

(** ** Stores the handlers can reach

    The hypotheses above on the stock levels ([ids_unique], [level_readable])
    hold of an empty store and are kept by every recorded transaction. *)

Lemma stock_ok_readable fos d sku wh : stock_ok d -> level_readable fos d sku wh.
Proof.
  intros (_ & _ & Hnum) i sd Hf. apply list_find_Some in Hf as (Hi & _).
  destruct (Forall_lookup_1 _ _ _ _ Hnum Hi) as (f & Hon).
  exists f. unfold dict_get, as_dict. rewrite lookup_insert_ne; [|done]. by rewrite Hon.
Qed.

Lemma stock_ok_no_stock d : collections d !! "stocklevel" = None -> stock_ok d.
Proof.
  intros Hnone. unfold stock_ok, coll_of. rewrite Hnone. simpl.
  split; [apply NoDup_nil_2|]. split; apply Forall_nil_2.
Qed.

Lemma record_keeps_stock_ok fos txn d clock n :
  stock_ok d ->
  exists d' n',
    record_inventory_txn fos txn (mkWorld (Some d) clock n) =
      (Return (txn_response d txn), mkWorld (Some d') clock n') /\
    stock_ok d'.
Proof.
  intros Hok. pose proof Hok as (Hnd & Hiss & Hnum).
  destruct (list_find (doc_matches (pair_query (InventoryTransaction.product_sku txn)
              (InventoryTransaction.warehouse_code txn))) (coll_of d "stocklevel"))
    as [[i sd]|] eqn:Hf.
  - destruct (stock_ok_readable fos d _ _ Hok i sd Hf) as (old & Hold).
    eexists _, _. split; [by eapply record_found|].
    apply list_find_Some in Hf as (Hi & _).
    unfold stock_ok. rewrite stock_of_set_stock. split; [|split].
    + unfold ids_unique. rewrite list_fmap_insert. cbn [level_updated doc_id].
      rewrite list_insert_id; [done|]. rewrite list_lookup_fmap. by rewrite Hi.
    + apply Forall_insert.
      * eapply Forall_impl; [exact Hiss|]. intros x Hx.
        unfold set_coll, txn_logged. cbn [next_oid]. cbn beta in Hx. lia.
      * unfold set_coll, txn_logged, level_updated. cbn [next_oid doc_id].
        pose proof (Forall_lookup_1 _ _ _ _ Hiss Hi) as Hlt. cbn beta in Hlt. lia.
    + apply Forall_insert; [done|]. eexists. cbn [level_updated doc_fields].
      rewrite lookup_insert_ne; [|done]. apply lookup_insert_eq.
  - set (new := mkDoc (N.succ (next_oid d))
                   (level_created (InventoryTransaction.product_sku txn)
                      (InventoryTransaction.warehouse_code txn)
                      (signed_change txn) (clock n) (clock (S n)))).
    set (d' := mkDb (<["stocklevel" := coll_of d "stocklevel" ++ [new]]>
                       (collections (txn_logged d txn)))
                    (N.succ (N.succ (next_oid d)))).
    assert (Hs : coll_of d' "stocklevel" = coll_of d "stocklevel" ++ [new]).
    { unfold coll_of at 1, d'. cbn [collections]. by rewrite lookup_insert_eq. }
    exists d', (S (S n)). split; [by apply record_fresh|].
    unfold stock_ok. rewrite Hs. split; [|split].
    + apply (ids_unique_snoc d); [done|done|lia].
    + unfold ids_issued. apply Forall_app. split.
      * eapply Forall_impl; [exact Hiss|]. intros x Hx.
        unfold d'. cbn [next_oid]. cbn beta in Hx. lia.
      * apply Forall_singleton. unfold d', new. cbn [next_oid doc_id]. lia.
    + apply Forall_app. split; [done|]. apply Forall_singleton. by eexists.
Qed.

(** * Further properties of the handlers *)

(** ** Laws of the monad, at a world *)

Lemma bind_assoc_run {A B C} (m : M A) (f : A -> M B) (g : B -> M C) w :
  bind (bind m f) g w = bind m (fun x => bind (f x) g) w.
Proof. unfold bind. by destruct (m w) as [[a|e] w']. Qed.

Lemma bind_ext_run {A B} (m : M A) (f g : A -> M B) w :
  (forall a w', f a w' = g a w') -> bind m f w = bind m g w.
Proof. intros Hfg. unfold bind. destruct (m w) as [[a|e] w']; [apply Hfg|done]. Qed.

Ltac assoc_right := etransitivity; [|symmetry; apply bind_assoc_run].

(** The two halves make the handler. *)
Lemma record_as_read_write fos txn w :
  record_inventory_txn fos txn w = bind (txn_read txn) (txn_write fos txn) w.
Proof.
  unfold record_inventory_txn, txn_read, txn_write. cbv zeta.
  assoc_right. apply bind_ext_run. intros txn_id w1.
  assoc_right. apply bind_ext_run. intros h w2.
  assoc_right. apply bind_ext_run. intros sku w3.
  assoc_right. apply bind_ext_run. intros wh w4.
  assoc_right. apply bind_ext_run. intros lvl w5.
  assoc_right. apply bind_ext_run. intros change w6.
  reflexivity.
Qed.

Lemma txn_read_run txn d clock n :
  txn_read txn (mkWorld (Some d) clock n) =
  (Return (str_oid (next_oid d),
           as_dict <$> (snd <$> list_find
             (doc_matches (pair_query (InventoryTransaction.product_sku txn)
                                      (InventoryTransaction.warehouse_code txn)))
             (coll_of d "stocklevel")),
           applied_change txn),
   mkWorld (Some (txn_logged d txn)) clock n).
Proof.
  unfold txn_read. cbv zeta.
  step create_document_run. fold (txn_logged d txn).
  step collection_run. step getitem_sku. step getitem_wh.
  step find_one_run. rewrite stock_of_logged.
  step change_run. reflexivity.
Qed.

(** The write half on a stock level that was read as [sd] with [on_hand]
    [old]: whatever the store holds by now, the document with that identifier
    gets [old + c]. *)
Lemma txn_write_found fos txn txn_id sd old d clock n :
  py_float fos (dict_get (as_dict sd) "on_hand" (VInt 0)) = Some old ->
  txn_write fos txn (txn_id, Some (as_dict sd), applied_change txn)
            (mkWorld (Some d) clock n) =
  (Return (list_to_map [("id", VStr txn_id); ("applied_change", applied_change txn)]),
   mkWorld (Some match list_find (doc_matches [("_id", Eq (VOid (doc_id sd)))])
                          (coll_of d "stocklevel") with
                 | Some (i, sd') =>
                     set_coll d "stocklevel"
                       (<[i := level_updated sd' (old + signed_change txn) (clock n)]>
                          (coll_of d "stocklevel"))
                 | None => d
                 end) clock (S n)).
Proof.
  intros Hold. unfold txn_write. cbv zeta. rewrite as_dict_truthy.
  erewrite bind_Return; [reflexivity|].
  step_refl. rewrite Hold. step_refl. rewrite float_of_applied. step_refl.
  step collection_run. step getitem_id. step utcnow_run.
  rewrite update_one_run. by destruct (list_find _ _) as [[i sd']|].
Qed.

Lemma ids_unique_insert (c : list StoredDoc) i sd sd' :
  ids_unique c -> c !! i = Some sd -> doc_id sd' = doc_id sd ->
  ids_unique (<[i := sd']> c).
Proof.
  unfold ids_unique. intros Hnd Hi Hid. rewrite list_fmap_insert, Hid.
  rewrite list_insert_id; [done|]. rewrite list_lookup_fmap. by rewrite Hi.
Qed.

Lemma stock_of_logged_twice d t1 t2 :
  coll_of (txn_logged (txn_logged d t1) t2) "stocklevel" = coll_of d "stocklevel".
Proof. by rewrite !stock_of_logged. Qed.

(** ** Stock levels across several requests *)

Lemma pair_matches_updated sku wh sd x t :
  doc_matches (pair_query sku wh) (level_updated sd x t) <->
  doc_matches (pair_query sku wh) sd.
Proof.
  unfold doc_matches, matches, pair_query, as_dict, level_updated.
  cbn [forallb fst snd doc_id doc_fields].
  rewrite !(lookup_insert_ne _ "_id"); [|done..].
  rewrite !(lookup_insert_ne _ "updated_at"); [|done..].
  by rewrite !(lookup_insert_ne _ "on_hand"); [|done..].
Qed.

Lemma find_after_update {A} (P : A -> Prop) `{!forall x, Decision (P x)}
    (l : list A) i x x' :
  list_find P l = Some (i, x) -> P x' -> list_find P (<[i := x']> l) = Some (i, x').
Proof.
  intros Hf Hx'. apply list_find_Some in Hf as (Hi & _ & Hbefore).
  apply list_find_Some. split; [|split; [done|]].
  - apply list_lookup_insert_eq. by eapply lookup_lt_Some.
  - intros j y Hj Hlt. rewrite list_lookup_insert_ne in Hj; [|lia]. by eapply Hbefore.
Qed.

Lemma updated_on_hand fos sd x t :
  py_float fos (dict_get (as_dict (level_updated sd x t)) "on_hand" (VInt 0)) = Some x.
Proof.
  unfold dict_get, as_dict, level_updated. cbn [doc_id doc_fields].
  rewrite lookup_insert_ne; [|done]. rewrite lookup_insert_ne; [|done].
  by rewrite lookup_insert_eq.
Qed.

(** X4 — the read and the write of [record_inventory_txn] are two store
    operations: when a second request reads the stock level before the first
    has written it, both answer with their change, but the level ends at
    [old + c2], the first change lost; served one after the other they
    leave [(old + c1) + c2]. *)
Theorem X4_lost_update (fos : string -> option float)
    (t1 t2 : InventoryTransaction.t) (d : Database) (clock : nat -> Z) (n i : nat)
    (sd : StoredDoc) (old : float) :
  let stock := coll_of d "stocklevel" in
  let w := mkWorld (Some d) clock n in
  InventoryTransaction.product_sku t2 = InventoryTransaction.product_sku t1 ->
  InventoryTransaction.warehouse_code t2 = InventoryTransaction.warehouse_code t1 ->
  list_find (doc_matches (pair_query (InventoryTransaction.product_sku t1)
                            (InventoryTransaction.warehouse_code t1))) stock = Some (i, sd) ->
  ids_unique stock ->
  py_float fos (dict_get (as_dict sd) "on_hand" (VInt 0)) = Some old ->
  (exists a1 a2 d' lvl,
      interleaved fos t1 t2 w = (Return (a1, a2), mkWorld (Some d') clock (S (S n))) /\
      a1 !! "applied_change" = Some (applied_change t1) /\
      a2 !! "applied_change" = Some (applied_change t2) /\
      coll_of d' "stocklevel" !! i = Some lvl /\
      doc_fields lvl !! "on_hand" = Some (VFloat (old + signed_change t2))) /\
  (exists a1 a2 d' lvl,
      (let* a1 := record_inventory_txn fos t1 in
       let* a2 := record_inventory_txn fos t2 in ret (a1, a2)) w =
        (Return (a1, a2), mkWorld (Some d') clock (S (S n))) /\
      coll_of d' "stocklevel" !! i = Some lvl /\
      doc_fields lvl !! "on_hand" =
        Some (VFloat (old + signed_change t1 + signed_change t2))).
Proof.
  intros stock w Hsku Hwh Hf Hnd Hold.
  pose proof Hf as Hf'. apply list_find_Some in Hf' as (Hi & Hm & _).
  assert (Hlt : i < length stock) by (by eapply lookup_lt_Some).
  set (lvl1 := level_updated sd (old + signed_change t1) (clock n)).
  assert (Hnd1 : ids_unique (<[i := lvl1]> stock)) by (by eapply ids_unique_insert).
  assert (Hi1 : <[i := lvl1]> stock !! i = Some lvl1) by (by apply list_lookup_insert_eq).
  assert (Hfind1 : list_find (doc_matches [("_id", Eq (VOid (doc_id sd)))])
                     (<[i := lvl1]> stock) = Some (i, lvl1))
    by exact (find_by_id _ i lvl1 Hnd1 Hi1).
  split.
  - unfold interleaved.
    step txn_read_run. fold stock. rewrite Hf.
    step txn_read_run. rewrite stock_of_logged, Hsku, Hwh. fold stock. rewrite Hf.
    cbn [fmap option_fmap option_map snd].
    erewrite bind_Return; [|apply txn_write_found; exact Hold].
    rewrite stock_of_logged_twice. fold stock.
    rewrite (find_by_id stock i sd Hnd Hi). fold lvl1.
    erewrite bind_Return; [|apply txn_write_found; exact Hold].
    rewrite stock_of_set_stock.
    rewrite Hfind1.
    eexists _, _, _, _. split; [reflexivity|].
    split; [reflexivity|]. split; [reflexivity|].
    rewrite stock_of_set_stock. split.
    + apply list_lookup_insert_eq. by rewrite length_insert.
    + unfold level_updated. cbn [doc_fields].
      rewrite lookup_insert_ne; [|done]. apply lookup_insert_eq.
  - step (record_found fos t1 d clock n i sd old Hf Hnd Hold). fold stock lvl1.
    erewrite bind_Return.
    2:{ apply (record_found fos t2 _ clock (S n) i lvl1 (old + signed_change t1)).
        - rewrite stock_of_set_stock, Hsku, Hwh.
          apply (find_after_update _ _ _ sd); [done|].
          apply pair_matches_updated. exact Hm.
        - by rewrite stock_of_set_stock.
        - apply updated_on_hand. }
    eexists _, _, _, _. split; [reflexivity|].
    rewrite !stock_of_set_stock. split.
    + apply list_lookup_insert_eq. by rewrite length_insert.
    + unfold level_updated. cbn [doc_fields].
      rewrite lookup_insert_ne; [|done]. apply lookup_insert_eq.
Qed.

Lemma X4_lost_update_witness :
  let w := mkWorld (Some Sample.stocked_db) Sample.clock 2 in
  (exists a1 a2 d' lvl,
      interleaved Sample.no_parse Sample.widget_out Sample.widget_return w =
        (Return (a1, a2), mkWorld (Some d') Sample.clock 4) /\
      a1 !! "applied_change" = Some (VFloat (-30)%float) /\
      a2 !! "applied_change" = Some (VFloat (-5)%float) /\
      coll_of d' "stocklevel" !! 0 = Some lvl /\
      doc_fields lvl !! "on_hand" = Some (VFloat 95%float)) /\
  (exists a1 a2 d' lvl,
      (let* a1 := record_inventory_txn Sample.no_parse Sample.widget_out in
       let* a2 := record_inventory_txn Sample.no_parse Sample.widget_return in
       ret (a1, a2)) w = (Return (a1, a2), mkWorld (Some d') Sample.clock 4) /\
      coll_of d' "stocklevel" !! 0 = Some lvl /\
      doc_fields lvl !! "on_hand" = Some (VFloat 65%float)).
Proof.
  destruct (X4_lost_update Sample.no_parse Sample.widget_out Sample.widget_return
              Sample.stocked_db Sample.clock 2 0 Sample.widget_level 100%float)
    as ((a1 & a2 & d' & lvl & H1 & H2 & H3 & H4 & H5) &
        (b1 & b2 & e' & lvl' & G1 & G2 & G3)).
  - reflexivity.
  - reflexivity.
  - reflexivity.
  - apply NoDup_singleton.
  - reflexivity.
  - split.
    + exists a1, a2, d', lvl. repeat split; assumption.
    + exists b1, b2, e', lvl'. repeat split; assumption.
Defined.

(** Requests served in turn on a pair that has a stock level. *)
Lemma record_all_from_level fos sku wh (ts : list InventoryTransaction.t) :
  Forall (fun t => InventoryTransaction.product_sku t = sku /\
                   InventoryTransaction.warehouse_code t = wh) ts ->
  forall d clock n i sd old,
    list_find (doc_matches (pair_query sku wh)) (coll_of d "stocklevel") = Some (i, sd) ->
    ids_unique (coll_of d "stocklevel") ->
    py_float fos (dict_get (as_dict sd) "on_hand" (VInt 0)) = Some old ->
    exists answers d' lvl,
      record_all fos ts (mkWorld (Some d) clock n) =
        (Return answers, mkWorld (Some d') clock (length ts + n)) /\
      (fun a : dict => a !! "applied_change") <$> answers =
        (fun t => Some (applied_change t)) <$> ts /\
      list_find (doc_matches (pair_query sku wh)) (coll_of d' "stocklevel") = Some (i, lvl) /\
      ids_unique (coll_of d' "stocklevel") /\
      length (coll_of d' "stocklevel") = length (coll_of d "stocklevel") /\
      doc_id lvl = doc_id sd /\
      py_float fos (dict_get (as_dict lvl) "on_hand" (VInt 0)) =
        Some (foldl (fun acc t => (acc + signed_change t)%float) old ts) /\
      (is_Some (doc_fields sd !! "on_hand" ≫= fun v =>
                  match v with VFloat f => Some f | _ => None end) ->
       doc_fields lvl !! "on_hand" =
         Some (VFloat (foldl (fun acc t => (acc + signed_change t)%float) old ts))).
Proof.
  induction 1 as [|t ts [Hsku Hwh] Hts IH]; intros d clock n i sd old Hf Hnd Hold.
  - exists [], d, sd. repeat split; try done.
    intros [f Hfl]. unfold dict_get, as_dict in Hold.
    rewrite lookup_insert_ne in Hold; [|done].
    destruct (doc_fields sd !! "on_hand") as [[]|] eqn:E; try done.
    simpl in Hold, Hfl. by simplify_eq.
  - pose proof Hf as Hf'. apply list_find_Some in Hf' as (Hi & Hm & _).
    set (lvl1 := level_updated sd (old + signed_change t) (clock n)).
    set (d1 := set_coll (txn_logged d t) "stocklevel" (<[i := lvl1]> (coll_of d "stocklevel"))).
    assert (Hs1 : coll_of d1 "stocklevel" = <[i := lvl1]> (coll_of d "stocklevel"))
      by apply stock_of_set_stock.
    destruct (IH d1 clock (S n) i lvl1 (old + signed_change t)%float)
      as (answers & d' & lvl & Hrun & Hans & Hf2 & Hnd2 & Hlen & Hid & Hread & Hfl).
    + rewrite Hs1. apply (find_after_update _ _ _ sd); [done|].
      by apply pair_matches_updated.
    + rewrite Hs1. by eapply ids_unique_insert.
    + apply updated_on_hand.
    + exists (txn_response d t :: answers), d', lvl.
      split; [|split; [|split; [done|split; [done|split; [|split; [done|split; [done|]]]]]]].
      * unfold record_all. cbn [for_each].
        erewrite bind_Return.
        2:{ apply (record_found fos t d clock n i sd old); [by rewrite Hsku, Hwh|done|done]. }
        erewrite bind_Return; [|exact Hrun].
        cbn [length]. by rewrite Nat.add_succ_r.
      * rewrite !fmap_cons, Hans. by rewrite response_change.
      * by rewrite Hlen, Hs1, length_insert.
      * intros _. apply Hfl. unfold lvl1, level_updated. cbn [doc_fields].
        rewrite lookup_insert_ne; [|done]. rewrite lookup_insert_eq. by eexists.
Qed.

(** X3 — transactions on one pair, each served to its end before the next:
    every one answers with its own change, no stock level is added beyond
    the pair's, and [on_hand] of the pair ends as the left-to-right binary64
    sum of the changes, started from the old [on_hand] or, on a pair without
    stock level, from the first change. *)
Theorem X3_running_total (fos : string -> option float) (sku wh : string)
    (ts : list InventoryTransaction.t) (d : Database) (clock : nat -> Z) (n : nat) :
  let stock := coll_of d "stocklevel" in
  let w := mkWorld (Some d) clock n in
  let total := foldl (fun acc t => (acc + signed_change t)%float) in
  Forall (fun t => InventoryTransaction.product_sku t = sku /\
                   InventoryTransaction.warehouse_code t = wh) ts ->
  ids_unique stock -> ids_issued d stock ->
  (forall i sd old,
      list_find (doc_matches (pair_query sku wh)) stock = Some (i, sd) ->
      doc_fields sd !! "on_hand" = Some (VFloat old) ->
      exists answers d' lvl,
        record_all fos ts w = (Return answers, mkWorld (Some d') clock (length ts + n)) /\
        (fun a : dict => a !! "applied_change") <$> answers =
          (fun t => Some (applied_change t)) <$> ts /\
        length (coll_of d' "stocklevel") = length stock /\
        coll_of d' "stocklevel" !! i = Some lvl /\
        doc_id lvl = doc_id sd /\
        doc_fields lvl !! "on_hand" = Some (VFloat (total old ts))) /\
  (list_find (doc_matches (pair_query sku wh)) stock = None ->
   forall t rest, ts = t :: rest ->
     exists answers d' lvl,
       record_all fos ts w = (Return answers, mkWorld (Some d') clock (S (length ts + n))) /\
       (fun a : dict => a !! "applied_change") <$> answers =
         (fun t => Some (applied_change t)) <$> ts /\
       length (coll_of d' "stocklevel") = S (length stock) /\
       coll_of d' "stocklevel" !! length stock = Some lvl /\
       doc_fields lvl !! "on_hand" = Some (VFloat (total (signed_change t) rest))).
Proof.
  intros stock w total Hts Hnd Hiss. split.
  - intros i sd old Hf Hon.
    destruct (record_all_from_level fos sku wh ts Hts d clock n i sd old Hf Hnd)
      as (answers & d' & lvl & Hrun & Hans & Hf' & _ & Hlen & Hid & _ & Hfl).
    { unfold dict_get, as_dict. rewrite lookup_insert_ne; [|done]. by rewrite Hon. }
    exists answers, d', lvl. apply list_find_Some in Hf' as (Hi & _).
    repeat split; try done. apply Hfl. rewrite Hon. by eexists.
  - intros Hf t rest ->. apply Forall_cons in Hts as ([Hsku Hwh] & Hrest).
    set (new := mkDoc (N.succ (next_oid d))
                  (level_created sku wh (signed_change t) (clock n) (clock (S n)))).
    set (d1 := mkDb (<["stocklevel" := stock ++ [new]]> (collections (txn_logged d t)))
                    (N.succ (N.succ (next_oid d)))).
    assert (Hs1 : coll_of d1 "stocklevel" = stock ++ [new]).
    { unfold coll_of at 1, d1. cbn [collections]. by rewrite lookup_insert_eq. }
    destruct (record_all_from_level fos sku wh rest Hrest d1 clock (S (S n))
                (length stock) new (signed_change t))
      as (answers & d' & lvl & Hrun & Hans & Hf' & _ & Hlen & _ & _ & Hfl).
    { rewrite Hs1. apply find_appended; [done|]. apply created_matches. }
    { rewrite Hs1. apply (ids_unique_snoc d); [done|done|lia]. }
    { reflexivity. }
    exists (txn_response d t :: answers), d', lvl.
    apply list_find_Some in Hf' as (Hi & _).
    split; [|split; [|split; [|split; [done|]]]].
    + unfold record_all. cbn [for_each].
      erewrite bind_Return.
      2:{ apply (record_fresh fos t d clock n). by rewrite Hsku, Hwh. }
      rewrite Hsku, Hwh. fold stock new d1.
      erewrite bind_Return; [|exact Hrun].
      cbn [length]. by rewrite !Nat.add_succ_r.
    + rewrite !fmap_cons, Hans. by rewrite response_change.
    + rewrite Hlen, Hs1, length_app. simpl. lia.
    + apply Hfl. by eexists.
Qed.

Lemma X3_running_total_witness :
  exists answers d' lvl,
    record_all Sample.no_parse [Sample.widget_out; Sample.widget_return; Sample.widget_out]
      (mkWorld (Some Sample.stocked_db) Sample.clock 2) =
      (Return answers, mkWorld (Some d') Sample.clock 5) /\
    (fun a : dict => a !! "applied_change") <$> answers =
      [Some (VFloat (-30)%float); Some (VFloat (-5)%float); Some (VFloat (-30)%float)] /\
    length (coll_of d' "stocklevel") = 1 /\
    coll_of d' "stocklevel" !! 0 = Some lvl /\
    doc_id lvl = 1%N /\
    doc_fields lvl !! "on_hand" = Some (VFloat 35%float).
Proof.
  refine (proj1 (X3_running_total Sample.no_parse "WIDGET-1" "MAIN"
                   [Sample.widget_out; Sample.widget_return; Sample.widget_out]
                   Sample.stocked_db Sample.clock 2 _ _ _)
                0 Sample.widget_level 100%float _ _).
  - repeat constructor.
  - apply NoDup_singleton.
  - apply Forall_singleton. reflexivity.
  - reflexivity.
  - reflexivity.
Defined.

(** ** What a recorded transaction leaves alone *)

Lemma other_colls d txn c nx name :
  name <> "inventorytransaction" -> name <> "stocklevel" ->
  coll_of (mkDb (<["stocklevel" := c]> (collections (txn_logged d txn))) nx) name =
  coll_of d name.
Proof.
  intros H1 H2. unfold coll_of, txn_logged. cbn [collections].
  rewrite lookup_insert_ne; [|done]. by rewrite lookup_insert_ne.
Qed.

Lemma other_colls_logged d txn name :
  name <> "inventorytransaction" -> coll_of (txn_logged d txn) name = coll_of d name.
Proof.
  intros H1. unfold coll_of, txn_logged. cbn [collections]. by rewrite lookup_insert_ne.
Qed.

Lemma logged_of_stock_insert d txn c nx :
  coll_of (mkDb (<["stocklevel" := c]> (collections (txn_logged d txn))) nx)
          "inventorytransaction" =
  coll_of d "inventorytransaction" ++ [mkDoc (next_oid d) (InventoryTransaction.model_dump txn)].
Proof.
  unfold coll_of at 1. cbn [collections]. rewrite lookup_insert_ne; [|done].
  apply logged_of_logged.
Qed.

Lemma updated_keeps_fields sd x t k :
  k <> "on_hand" -> k <> "updated_at" ->
  doc_fields (level_updated sd x t) !! k = doc_fields sd !! k.
Proof.
  intros H1 H2. unfold level_updated. cbn [doc_fields].
  rewrite lookup_insert_ne; [|done]. by rewrite lookup_insert_ne.
Qed.

(** X1 — whatever its outcome, [record_inventory_txn] on a configured
    store appends the transaction document and nothing else to its
    collection, leaves every collection but that one and [stocklevel] as it
    was, removes no stock level, and changes none but the one its lookup
    returned; of that one it keeps the identifier and every field other than
    [on_hand] and [updated_at]. *)
Theorem X1_record_frame (fos : string -> option float)
    (txn : InventoryTransaction.t) (d : Database) (clock : nat -> Z) (n : nat) :
  let stock := coll_of d "stocklevel" in
  let q := pair_query (InventoryTransaction.product_sku txn)
                      (InventoryTransaction.warehouse_code txn) in
  ids_unique stock ->
  exists d' n',
    snd (record_inventory_txn fos txn (mkWorld (Some d) clock n)) =
      mkWorld (Some d') clock n' /\
    coll_of d' "inventorytransaction" =
      coll_of d "inventorytransaction" ++
      [mkDoc (next_oid d) (InventoryTransaction.model_dump txn)] /\
    (forall name, name <> "inventorytransaction" -> name <> "stocklevel" ->
                  coll_of d' name = coll_of d name) /\
    (forall j sd, stock !! j = Some sd -> list_find (doc_matches q) stock <> Some (j, sd) ->
                  coll_of d' "stocklevel" !! j = Some sd) /\
    (forall j sd, stock !! j = Some sd ->
       exists sd', coll_of d' "stocklevel" !! j = Some sd' /\
                   doc_id sd' = doc_id sd /\
                   forall k, k <> "on_hand" -> k <> "updated_at" ->
                             doc_fields sd' !! k = doc_fields sd !! k).
Proof.
  intros stock q Hnd.
  destruct (list_find (doc_matches q) stock) as [[i sd0]|] eqn:Hf.
  - destruct (py_float fos (dict_get (as_dict sd0) "on_hand" (VInt 0))) as [old|] eqn:Hold.
    + rewrite (record_found fos txn d clock n i sd0 old Hf Hnd Hold). cbn [snd].
      eexists _, _. split; [reflexivity|].
      split; [apply logged_of_set_stock|]. split; [intros; by apply other_colls|].
      rewrite stock_of_set_stock. fold stock.
      apply list_find_Some in Hf as (Hi & _). split.
      * intros j sd Hj Hne. destruct (decide (j = i)) as [->|Hji].
        -- exfalso. apply Hne. congruence.
        -- by rewrite list_lookup_insert_ne.
      * intros j sd Hj. destruct (decide (j = i)) as [->|Hji].
        -- assert (sd = sd0) as -> by congruence. eexists. split.
           ++ apply list_lookup_insert_eq. by eapply lookup_lt_Some.
           ++ split; [reflexivity|]. intros k. apply updated_keeps_fields.
        -- exists sd. by rewrite list_lookup_insert_ne.
    + rewrite (record_unreadable fos txn d clock n i sd0 Hf Hold). cbn [snd].
      eexists _, _. split; [reflexivity|].
      split; [apply logged_of_logged|].
      split; [intros; by apply other_colls_logged|].
      rewrite stock_of_logged. fold stock. split; [done|]. intros j sd Hj. by exists sd.
  - rewrite (record_fresh fos txn d clock n Hf). cbn [snd].
    eexists _, _. split; [reflexivity|].
    split; [apply logged_of_stock_insert|]. split; [intros; by apply other_colls|].
    assert (Hs : forall c nx, coll_of (mkDb (<["stocklevel" := c]>
                  (collections (txn_logged d txn))) nx) "stocklevel" = c).
    { intros c nx. unfold coll_of. cbn [collections]. by rewrite lookup_insert_eq. }
    rewrite Hs. fold stock. split.
    + intros j sd Hj _. by apply lookup_app_l_Some.
    + intros j sd Hj. exists sd. split; [by apply lookup_app_l_Some|done].
Qed.

Lemma X1_record_frame_witness :
  exists d' n',
    snd (record_inventory_txn Sample.no_parse Sample.widget_out
           (mkWorld (Some Scenario.two_levels_db) Sample.clock 0)) =
      mkWorld (Some d') Sample.clock n' /\
    coll_of d' "inventorytransaction" =
      [mkDoc 4%N (InventoryTransaction.model_dump Sample.widget_out)] /\
    coll_of d' "product" = [] /\
    coll_of d' "stocklevel" !! 1 = Some Scenario.gadget_level.
Proof.
  destruct (X1_record_frame Sample.no_parse Sample.widget_out Scenario.two_levels_db
              Sample.clock 0) as (d' & n' & Hrun & Hlog & Hother & Hrest & _).
  - unfold ids_unique. apply (bool_decide_unpack _). reflexivity.
  - exists d', n'. split; [exact Hrun|]. split; [exact Hlog|]. split.
    + by apply (Hother "product").
    + apply Hrest; [reflexivity|]. vm_compute. discriminate.
Defined.

(** X2 — the transaction document is inserted before the stock level is
    read as a number: when [on_hand] of the level found is something
    [float()] refuses, the request dies with status 500 while the transaction
    stays recorded, the stock levels untouched and the clock unread. *)
Theorem X2_recorded_before_failure (fos : string -> option float)
    (txn : InventoryTransaction.t) (d : Database) (clock : nat -> Z) (n i : nat)
    (sd : StoredDoc) :
  list_find (doc_matches (pair_query (InventoryTransaction.product_sku txn)
                            (InventoryTransaction.warehouse_code txn)))
            (coll_of d "stocklevel") = Some (i, sd) ->
  py_float fos (dict_get (as_dict sd) "on_hand" (VInt 0)) = None ->
  exists e d',
    record_inventory_txn fos txn (mkWorld (Some d) clock n) =
      (Raise e, mkWorld (Some d') clock n) /\
    status_of e = 500%Z /\
    coll_of d' "inventorytransaction" =
      coll_of d "inventorytransaction" ++
      [mkDoc (next_oid d) (InventoryTransaction.model_dump txn)] /\
    coll_of d' "stocklevel" = coll_of d "stocklevel".
Proof.
  intros Hf Hold. eexists _, _.
  split; [by apply (record_unreadable fos txn d clock n i sd)|].
  split; [reflexivity|]. split; [apply logged_of_logged|apply stock_of_logged].
Qed.

Lemma X2_recorded_before_failure_witness :
  exists e d',
    record_inventory_txn Sample.no_parse Sample.widget_in
      (mkWorld (Some Scenario.null_db) Sample.clock 0) =
      (Raise e, mkWorld (Some d') Sample.clock 0) /\
    status_of e = 500%Z /\
    coll_of d' "inventorytransaction" =
      [mkDoc 1%N (InventoryTransaction.model_dump Sample.widget_in)] /\
    coll_of d' "stocklevel" = [Scenario.null_level].
Proof.
  apply (X2_recorded_before_failure Sample.no_parse Sample.widget_in Scenario.null_db
           Sample.clock 0 0 Scenario.null_level); reflexivity.
Defined.

Lemma float_zero_add (x : float) : x <> neg_zero -> (0 + x)%float = x.
Proof.
  intros Hx. apply Prim2SF_eq. rewrite add_spec.
  change (Prim2SF 0%float) with (S754_zero false).
  destruct (Prim2SF x) as [s|s| |s m e] eqn:E; try reflexivity.
  destruct s; [|reflexivity].
  exfalso. apply Hx. rewrite <- (SF2Prim_Prim2SF x), E. reflexivity.
Qed.

(** X5 — [lvl.get("on_hand", 0)] and [float(..)]: a stock level found
    without [on_hand] is updated as if it held zero, and one holding an [int]
    is updated from the double that int converts to; either way [on_hand] is
    a double afterwards. *)
Theorem X5_on_hand_missing_or_int (fos : string -> option float)
    (txn : InventoryTransaction.t) (d : Database) (clock : nat -> Z) (n i : nat)
    (sd : StoredDoc) :
  let stock := coll_of d "stocklevel" in
  let c := signed_change txn in
  list_find (doc_matches (pair_query (InventoryTransaction.product_sku txn)
                            (InventoryTransaction.warehouse_code txn))) stock = Some (i, sd) ->
  ids_unique stock ->
  (doc_fields sd !! "on_hand" = None ->
   exists d',
     record_inventory_txn fos txn (mkWorld (Some d) clock n) =
       (Return (txn_response d txn), mkWorld (Some d') clock (S n)) /\
     coll_of d' "stocklevel" = <[i := level_updated sd (0 + c) (clock n)]> stock /\
     (c <> neg_zero -> (0 + c)%float = c)) /\
  (forall z f,
      doc_fields sd !! "on_hand" = Some (VInt z) -> float_of_Z z = Some f ->
      exists d',
        record_inventory_txn fos txn (mkWorld (Some d) clock n) =
          (Return (txn_response d txn), mkWorld (Some d') clock (S n)) /\
        coll_of d' "stocklevel" = <[i := level_updated sd (f + c) (clock n)]> stock).
Proof.
  intros stock c Hf Hnd. split.
  - intros Hnone.
    assert (Hold : py_float fos (dict_get (as_dict sd) "on_hand" (VInt 0)) = Some 0%float).
    { unfold dict_get, as_dict. rewrite lookup_insert_ne; [|done]. by rewrite Hnone. }
    eexists. split; [by apply (record_found fos txn d clock n i sd 0%float)|].
    split; [apply stock_of_set_stock|apply float_zero_add].
  - intros z f Hint Hz.
    assert (Hold : py_float fos (dict_get (as_dict sd) "on_hand" (VInt 0)) = Some f).
    { unfold dict_get, as_dict. rewrite lookup_insert_ne; [|done]. by rewrite Hint. }
    eexists. split; [by apply (record_found fos txn d clock n i sd f)|].
    apply stock_of_set_stock.
Qed.

Lemma X5_on_hand_missing_or_int_witness :
  exists d',
    record_inventory_txn Sample.no_parse Sample.widget_in
      (mkWorld (Some Scenario.bare_db) Sample.clock 0) =
      (Return (txn_response Scenario.bare_db Sample.widget_in),
       mkWorld (Some d') Sample.clock 1) /\
    coll_of d' "stocklevel" = [level_updated Scenario.bare_level 100%float 1700000000].
Proof.
  destruct (proj1 (X5_on_hand_missing_or_int Sample.no_parse Sample.widget_in
                     Scenario.bare_db Sample.clock 0 0 Scenario.bare_level
                     eq_refl (NoDup_singleton _)) eq_refl)
    as (d' & Hrun & Hstock & _).
  exists d'. split; [exact Hrun|]. rewrite Hstock. reflexivity.
Defined.

(** ** Business keys stay unique *)

Lemma key_absent key s (c : list StoredDoc) :
  key <> "_id" ->
  list_find (doc_matches [(key, Eq (VStr s))]) c = None ->
  Some (VStr s) ∉ key_values key c.
Proof.
  intros Hk Hnone Hin. apply list_find_None in Hnone.
  apply list_elem_of_fmap in Hin as (sd & Hs & Hsd).
  rewrite Forall_forall in Hnone. apply (Hnone sd Hsd).
  by apply key_query_matches.
Qed.

Lemma unique_after_append key s (c : list StoredDoc) o data :
  key <> "_id" -> key_unique key c ->
  list_find (doc_matches [(key, Eq (VStr s))]) c = None ->
  data !! key = Some (VStr s) ->
  key_unique key (c ++ [mkDoc o data]).
Proof.
  intros Hk (Hnd & Hstr) Hnone Hdata. split.
  - unfold key_values. rewrite fmap_app. apply NoDup_app.
    split; [done|]. split; [|apply NoDup_singleton].
    intros x Hx Hx'. apply list_elem_of_singleton in Hx'. cbn [doc_fields] in Hx'.
    subst x. rewrite Hdata in Hx. by eapply key_absent.
  - apply Forall_app. split; [done|]. apply Forall_singleton. by exists s.
Qed.

Lemma created_coll name c d nx : coll_of (mkDb (<[name := c]> (collections d)) nx) name = c.
Proof. unfold coll_of. cbn [collections]. by rewrite lookup_insert_eq. Qed.

(** X6 — the query before the insert keeps a business key unique: if the
    documents of the collection hold pairwise different strings under the
    key, they still do after the create handler ran, whether it inserted or
    refused.  So for [sku] of products, [code] of warehouses and [number] of
    sales orders, invoices and payments. *)
Theorem X6_key_stays_unique (d : Database) (clock : nat -> Z) (n : nat) :
  let w := mkWorld (Some d) clock n in
  let kept {A} (name key : string) (handler : M A) :=
    key_unique key (coll_of d name) ->
    exists d', snd (handler w) = mkWorld (Some d') clock n /\
               key_unique key (coll_of d' name) in
  (forall p, kept "product" "sku" (create_product p)) /\
  (forall p, kept "warehouse" "code" (create_warehouse p)) /\
  (forall p, kept "salesorder" "number" (create_sales_order p)) /\
  (forall p, kept "invoice" "number" (create_invoice p)) /\
  (forall p, kept "payment" "number" (create_payment p)).
Proof.
  intros w kept. unfold kept. repeat split; intros p Huniq.
  - unfold create_product. cbv zeta. step collection_run. step getitem_product_sku.
    step find_one_run.
    destruct (list_find (doc_matches [("sku", Eq (VStr (Product.sku p)))])
                (coll_of d "product")) as [[i sd]|] eqn:Hf.
    + cbn [fmap option_fmap option_map snd]. rewrite as_dict_truthy. by exists d.
    + cbn [fmap option_fmap option_map truthy]. step create_document_run.
      eexists. split; [reflexivity|]. rewrite created_coll.
      by apply (unique_after_append "sku" (Product.sku p)).
  - unfold create_warehouse. cbv zeta. step collection_run. step getitem_warehouse_code.
    step find_one_run.
    destruct (list_find (doc_matches [("code", Eq (VStr (Warehouse.code p)))])
                (coll_of d "warehouse")) as [[i sd]|] eqn:Hf.
    + cbn [fmap option_fmap option_map snd]. rewrite as_dict_truthy. by exists d.
    + cbn [fmap option_fmap option_map truthy]. step create_document_run.
      eexists. split; [reflexivity|]. rewrite created_coll.
      by apply (unique_after_append "code" (Warehouse.code p)).
  - unfold create_sales_order. step collection_run. step find_one_run.
    destruct (list_find (doc_matches [("number", Eq (VStr (SalesOrder.number p)))])
                (coll_of d "salesorder")) as [[i sd]|] eqn:Hf.
    + cbn [fmap option_fmap option_map snd]. rewrite as_dict_truthy. by exists d.
    + cbn [fmap option_fmap option_map truthy]. step create_document_run.
      eexists. split; [reflexivity|]. rewrite created_coll.
      by apply (unique_after_append "number" (SalesOrder.number p)).
  - unfold create_invoice. step collection_run. step find_one_run.
    destruct (list_find (doc_matches [("number", Eq (VStr (Invoice.number p)))])
                (coll_of d "invoice")) as [[i sd]|] eqn:Hf.
    + cbn [fmap option_fmap option_map snd]. rewrite as_dict_truthy. by exists d.
    + cbn [fmap option_fmap option_map truthy]. step create_document_run.
      eexists. split; [reflexivity|]. rewrite created_coll.
      by apply (unique_after_append "number" (Invoice.number p)).
  - unfold create_payment. step collection_run. step find_one_run.
    destruct (list_find (doc_matches [("number", Eq (VStr (Payment.number p)))])
                (coll_of d "payment")) as [[i sd]|] eqn:Hf.
    + cbn [fmap option_fmap option_map snd]. rewrite as_dict_truthy. by exists d.
    + cbn [fmap option_fmap option_map truthy]. step create_document_run.
      eexists. split; [reflexivity|]. rewrite created_coll.
      by apply (unique_after_append "number" (Payment.number p)).
Qed.

Lemma X6_key_stays_unique_witness :
  let w := mkWorld (Some Sample.catalog_db) Sample.clock 0 in
  (exists d', snd (create_product Scenario.cheap_widget w) = mkWorld (Some d') Sample.clock 0 /\
              key_unique "sku" (coll_of d' "product")) /\
  (exists d', snd (create_product Sample.widget w) = mkWorld (Some d') Sample.clock 0 /\
              key_unique "sku" (coll_of d' "product")).
Proof.
  assert (Huniq : key_unique "sku" (coll_of Sample.catalog_db "product")).
  { split; [apply NoDup_singleton|]. apply Forall_singleton. by eexists. }
  destruct (X6_key_stays_unique Sample.catalog_db Sample.clock 0) as (Hproduct & _).
  split; by apply Hproduct.
Defined.

Lemma keyed_create_found d clock n name key s detail data answer sd :
  key <> "_id" -> sd ∈ coll_of d name -> doc_fields sd !! key = Some (VStr s) ->
  keyed_create_result d clock n name key s detail data answer =
  (Raise (HTTPException 400 detail), mkWorld (Some d) clock n).
Proof.
  intros Hk Hin Hs. unfold keyed_create_result.
  destruct (list_find_elem_of (doc_matches [(key, Eq (VStr s))]) (coll_of d name) sd Hin)
    as [[i sd'] ->]; [by apply key_query_matches|done].
Qed.

Lemma keyed_create_returned d clock n name key s detail data answer r w' :
  keyed_create_result d clock n name key s detail data answer = (Return r, w') ->
  w' = mkWorld (Some (mkDb (<[name := coll_of d name ++ [mkDoc (next_oid d) data]]>
                              (collections d))
                           (N.succ (next_oid d)))) clock n.
Proof.
  unfold keyed_create_result. destruct (list_find _ _) as [[i sd]|]; [done|].
  by intros [= _ <-].
Qed.

Lemma create_product_run p d clock n :
  create_product p (mkWorld (Some d) clock n) =
  keyed_create_result d clock n "product" "sku" (Product.sku p) "SKU already exists"
    (Product.model_dump p)
    (Product.model_dump p ∪ {["id" := VStr (str_oid (next_oid d))]}).
Proof.
  unfold create_product, keyed_create_result. cbv zeta.
  step collection_run. step getitem_product_sku. step find_one_run.
  destruct (list_find _ _) as [[i sd]|]; cbn [fmap option_fmap option_map snd].
  - by rewrite as_dict_truthy.
  - cbn [truthy]. by step create_document_run.
Qed.

Lemma create_warehouse_run p d clock n :
  create_warehouse p (mkWorld (Some d) clock n) =
  keyed_create_result d clock n "warehouse" "code" (Warehouse.code p)
    "Warehouse code already exists"
    (Warehouse.model_dump p) {["id" := VStr (str_oid (next_oid d))]}.
Proof.
  unfold create_warehouse, keyed_create_result. cbv zeta.
  step collection_run. step getitem_warehouse_code. step find_one_run.
  destruct (list_find _ _) as [[i sd]|]; cbn [fmap option_fmap option_map snd].
  - by rewrite as_dict_truthy.
  - cbn [truthy]. by step create_document_run.
Qed.

Lemma create_sales_order_run p d clock n :
  create_sales_order p (mkWorld (Some d) clock n) =
  keyed_create_result d clock n "salesorder" "number" (SalesOrder.number p)
    "Order number already exists"
    (SalesOrder.model_dump p) {["id" := VStr (str_oid (next_oid d))]}.
Proof.
  unfold create_sales_order, keyed_create_result.
  step collection_run. step find_one_run.
  destruct (list_find _ _) as [[i sd]|]; cbn [fmap option_fmap option_map snd].
  - by rewrite as_dict_truthy.
  - cbn [truthy]. by step create_document_run.
Qed.

Lemma create_invoice_run p d clock n :
  create_invoice p (mkWorld (Some d) clock n) =
  keyed_create_result d clock n "invoice" "number" (Invoice.number p)
    "Invoice number already exists"
    (Invoice.model_dump p) {["id" := VStr (str_oid (next_oid d))]}.
Proof.
  unfold create_invoice, keyed_create_result.
  step collection_run. step find_one_run.
  destruct (list_find _ _) as [[i sd]|]; cbn [fmap option_fmap option_map snd].
  - by rewrite as_dict_truthy.
  - cbn [truthy]. by step create_document_run.
Qed.

Lemma create_payment_run p d clock n :
  create_payment p (mkWorld (Some d) clock n) =
  keyed_create_result d clock n "payment" "number" (Payment.number p)
    "Payment number already exists"
    (Payment.model_dump p) {["id" := VStr (str_oid (next_oid d))]}.
Proof.
  unfold create_payment, keyed_create_result.
  step collection_run. step find_one_run.
  destruct (list_find _ _) as [[i sd]|]; cbn [fmap option_fmap option_map snd].
  - by rewrite as_dict_truthy.
  - cbn [truthy]. by step create_document_run.
Qed.

Lemma last_appended {A} (c : list A) (x : A) : x ∈ c ++ [x].
Proof. apply elem_of_app. right. apply list_elem_of_here. Qed.

(** X7 — once a create with a business key has answered, a later create
    with the same key is refused with status 400 and changes nothing,
    whatever the rest of its payload.  So for products, warehouses, sales
    orders, invoices and payments. *)
Theorem X7_second_create_refused (d : Database) (clock : nat -> Z) (n : nat) :
  let w := mkWorld (Some d) clock n in
  (forall p p' r w', create_product p w = (Return r, w') ->
     Product.sku p' = Product.sku p ->
     create_product p' w' = (Raise (HTTPException 400 "SKU already exists"), w')) /\
  (forall p p' r w', create_warehouse p w = (Return r, w') ->
     Warehouse.code p' = Warehouse.code p ->
     create_warehouse p' w' = (Raise (HTTPException 400 "Warehouse code already exists"), w')) /\
  (forall p p' r w', create_sales_order p w = (Return r, w') ->
     SalesOrder.number p' = SalesOrder.number p ->
     create_sales_order p' w' = (Raise (HTTPException 400 "Order number already exists"), w')) /\
  (forall p p' r w', create_invoice p w = (Return r, w') ->
     Invoice.number p' = Invoice.number p ->
     create_invoice p' w' = (Raise (HTTPException 400 "Invoice number already exists"), w')) /\
  (forall p p' r w', create_payment p w = (Return r, w') ->
     Payment.number p' = Payment.number p ->
     create_payment p' w' = (Raise (HTTPException 400 "Payment number already exists"), w')).
Proof.
  intros w. repeat split; intros p p' r w' Hrun Hsame; subst w.
  - rewrite create_product_run in Hrun. apply keyed_create_returned in Hrun as ->.
    rewrite create_product_run, Hsame.
    eapply keyed_create_found;
      [done|rewrite created_coll; apply last_appended|reflexivity].
  - rewrite create_warehouse_run in Hrun. apply keyed_create_returned in Hrun as ->.
    rewrite create_warehouse_run, Hsame.
    eapply keyed_create_found;
      [done|rewrite created_coll; apply last_appended|reflexivity].
  - rewrite create_sales_order_run in Hrun. apply keyed_create_returned in Hrun as ->.
    rewrite create_sales_order_run, Hsame.
    eapply keyed_create_found;
      [done|rewrite created_coll; apply last_appended|reflexivity].
  - rewrite create_invoice_run in Hrun. apply keyed_create_returned in Hrun as ->.
    rewrite create_invoice_run, Hsame.
    eapply keyed_create_found;
      [done|rewrite created_coll; apply last_appended|reflexivity].
  - rewrite create_payment_run in Hrun. apply keyed_create_returned in Hrun as ->.
    rewrite create_payment_run, Hsame.
    eapply keyed_create_found;
      [done|rewrite created_coll; apply last_appended|reflexivity].
Qed.

Lemma X7_second_create_refused_witness :
  exists r w',
    create_product Sample.widget (mkWorld (Some Sample.empty_db) Sample.clock 0) =
      (Return r, w') /\
    create_product Scenario.widget_again w' =
      (Raise (HTTPException 400 "SKU already exists"), w').
Proof.
  eexists _, _. split; [rewrite create_product_run; reflexivity|].
  eapply (proj1 (X7_second_create_refused Sample.empty_db Sample.clock 0)
            Sample.widget Scenario.widget_again).
  - rewrite create_product_run. reflexivity.
  - reflexivity.
Defined.

(** ** Creates without a business key *)

(** X8 — [create_customer], [create_supplier] and [create_tax] look at
    nothing before they insert: on a configured store they always answer with
    a new identifier, and the same payload sent twice is stored twice, under
    two identifiers. *)
Theorem X8_keyless_create_twice (d : Database) (clock : nat -> Z) (n : nat) :
  let w := mkWorld (Some d) clock n in
  let id1 := next_oid d in
  let id2 := N.succ (next_oid d) in
  let twice (name : string) (handler : M dict) (data : dict) :=
    exists d1 d2,
      handler w = (Return {["id" := VStr (str_oid id1)]}, mkWorld (Some d1) clock n) /\
      handler (mkWorld (Some d1) clock n) =
        (Return {["id" := VStr (str_oid id2)]}, mkWorld (Some d2) clock n) /\
      coll_of d2 name = coll_of d name ++ [mkDoc id1 data; mkDoc id2 data] in
  (forall p, twice "customer" (create_customer p) (Customer.model_dump p)) /\
  (forall p, twice "supplier" (create_supplier p) (Supplier.model_dump p)) /\
  (forall p, twice "tax" (create_tax p) (Tax.model_dump p)).
Proof.
  intros w id1 id2 twice. unfold twice.
  repeat split; intros p; eexists _, _;
    (split; [reflexivity|split; [reflexivity|]]);
    rewrite created_coll, created_coll; by rewrite <- (assoc_L (++)).
Qed.

(** ** Reading endpoints *)

(** X9 — the list endpoints and the dashboard only read: whatever the
    world, configured or not, it is the same after the call, store and clock
    alike. *)
Theorem X9_reads_change_nothing (w : World) :
  snd (list_products w) = w /\ snd (list_customers w) = w /\
  snd (list_suppliers w) = w /\ snd (list_taxes w) = w /\
  snd (list_warehouses w) = w /\ snd (list_stock_levels w) = w /\
  snd (list_sales_orders w) = w /\ snd (list_invoices w) = w /\
  snd (list_payments w) = w /\ snd (dashboard_summary w) = w.
Proof.
  destruct w as [[d|] clock n].
  - unfold list_products, list_customers, list_suppliers, list_taxes, list_warehouses,
      list_stock_levels, list_sales_orders, list_invoices, list_payments.
    rewrite !listing_run, dashboard_run. by repeat split.
  - by repeat split.
Qed.

(** X10 — the dashboard and the list endpoints agree: on one store each
    total of [GET /dashboard] is the number of entries the list endpoint of
    that collection returns, and [open_sales_orders] is at most the number of
    sales orders listed. *)
Theorem X10_totals_match_listings (d : Database) (clock : nat -> Z) (n : nat) :
  let w := mkWorld (Some d) clock n in
  let listed (handler : M (list dict)) (total : option value) :=
    exists l, handler w = (Return l, w) /\ total = Some (VInt (Z.of_nat (length l))) in
  exists resp totals,
    dashboard_summary w = (Return resp, w) /\
    resp !! "totals" = Some (VDict totals) /\
    listed list_products (totals !! "products") /\
    listed list_customers (totals !! "customers") /\
    listed list_suppliers (totals !! "suppliers") /\
    listed list_invoices (totals !! "invoices") /\
    listed list_payments (totals !! "payments") /\
    listed list_stock_levels (totals !! "stock_items") /\
    exists orders k,
      list_sales_orders w = (Return orders, w) /\
      totals !! "open_sales_orders" = Some (VInt (Z.of_nat k)) /\
      k <= length orders.
Proof.
  intros w listed. unfold listed. eexists _, _. split; [apply dashboard_run|].
  split; [reflexivity|].
  unfold list_products, list_customers, list_suppliers, list_invoices, list_payments,
    list_stock_levels, list_sales_orders.
  repeat (split; [eexists; split; [apply listing_run|]; by rewrite length_fmap|]).
  eexists _, _. split; [apply listing_run|]. split; [reflexivity|].
  rewrite length_fmap. apply length_filter.
Qed.

Lemma low_query_float sd f :
  doc_fields sd !! "on_hand" = Some (VFloat f) -> (f <=? 0)%float = true ->
  doc_matches low_stock_query sd.
Proof.
  intros Hon Hle. unfold doc_matches, matches, low_stock_query, as_dict.
  cbn [forallb fst snd]. rewrite lookup_insert_ne; [|done].
  by rewrite Hon, lte_zero_float, Hle.
Qed.

Lemma low_query_int sd z :
  doc_fields sd !! "on_hand" = Some (VInt z) -> (z <= 0)%Z ->
  doc_matches low_stock_query sd.
Proof.
  intros Hon Hle. unfold doc_matches, matches, low_stock_query, as_dict.
  cbn [forallb fst snd]. rewrite lookup_insert_ne; [|done].
  rewrite Hon, lte_zero_int. rewrite andb_true_r. by apply Z.leb_le.
Qed.

(** X11 — [.limit(10)] cuts, it does not pick: [low_stock] holds the first
    ten stock levels, in store order, among those with [on_hand <= 0]; while
    no more than ten are that low, every stock level whose [on_hand] is a
    double or an int at most zero is reported. *)
Theorem X11_low_stock_complete (d : Database) (clock : nat -> Z) (n : nat) :
  let w := mkWorld (Some d) clock n in
  let short := filter (doc_matches low_stock_query) (coll_of d "stocklevel") in
  exists resp low,
    dashboard_summary w = (Return resp, w) /\
    resp !! "low_stock" = Some (VList (VDict <$> low)) /\
    length low = Nat.min 10 (length short) /\
    (forall k x, low !! k = Some x -> exists sd, short !! k = Some sd /\ x = tagged sd) /\
    (length short <= 10 ->
     forall sd, sd ∈ coll_of d "stocklevel" ->
       (exists f, doc_fields sd !! "on_hand" = Some (VFloat f) /\ (f <=? 0)%float = true) \/
       (exists z, doc_fields sd !! "on_hand" = Some (VInt z) /\ (z <= 0)%Z) ->
       tagged sd ∈ low).
Proof.
  intros w short. eexists _, _. split; [apply dashboard_run|].
  split; [reflexivity|]. fold short. split; [|split].
  - by rewrite length_fmap, length_take.
  - intros k x Hk. apply list_lookup_fmap_Some in Hk as (sd & -> & Hsd).
    apply lookup_take_Some in Hsd as (Hsd & _). by exists sd.
  - intros Hfew sd Hin Hlow. rewrite take_ge; [|done].
    apply list_elem_of_fmap. exists sd. split; [done|].
    apply list_elem_of_filter. split; [|done].
    destruct Hlow as [(f & Hon & Hle)|(z & Hon & Hle)].
    + by eapply low_query_float.
    + by eapply low_query_int.
Qed.

Lemma X11_low_stock_complete_witness :
  exists resp low,
    dashboard_summary (mkWorld (Some Scenario.two_levels_db) Sample.clock 0) =
      (Return resp, mkWorld (Some Scenario.two_levels_db) Sample.clock 0) /\
    resp !! "low_stock" = Some (VList (VDict <$> low)) /\
    length low = 1 /\
    tagged Scenario.gadget_level ∈ low.
Proof.
  destruct (X11_low_stock_complete Scenario.two_levels_db Sample.clock 0)
    as (resp & low & Hrun & Hresp & Hlen & _ & Hall).
  exists resp, low. split; [exact Hrun|]. split; [exact Hresp|]. split; [exact Hlen|].
  apply Hall.
  - vm_compute. lia.
  - apply list_elem_of_further, list_elem_of_here.
  - left. exists (-2)%float. split; reflexivity.
Defined.

(** ** Validation before the handler *)

Lemma float_neg_not_ge (f : float) : (f <? 0)%float = true -> (0 <=? f)%float = false.
Proof.
  rewrite ltb_spec, leb_spec. change (Prim2SF 0%float) with (S754_zero false).
  destruct (Prim2SF f) as [s|s| |s m e]; try done; by destruct s.
Qed.

Lemma float_nan_not_ge (f : float) : (f =? f)%float = false -> (0 <=? f)%float = false.
Proof.
  rewrite FloatAxioms.eqb_spec, leb_spec. change (Prim2SF 0%float) with (S754_zero false).
  destruct (Prim2SF f) as [s|s| |s m e]; try done.
  - by destruct s.
  - unfold SFeqb, SFcompare.
    destruct s; rewrite Z.compare_refl, Pos.compare_cont_refl; done.
Qed.

(** X12 — [ge=0] on [price], [cost] and [rate]: a payload whose price, cost
    or rate is below zero or not a number is refused with status 422 before
    the handler runs, so nothing is read or written, store configured or
    not; a payload that leaves price and cost out passes. *)
Theorem X12_constraints_checked_first (w : World) :
  let bad (f : float) := (f <? 0)%float = true \/ (f =? f)%float = false in
  (forall p f, Product.price p = Some f \/ Product.cost p = Some f -> bad f ->
               post_products p w = (Raise RequestValidationError, w)) /\
  (forall t f, Tax.rate t = Some f -> bad f ->
               post_taxes t w = (Raise RequestValidationError, w)) /\
  (forall p, Product.price p = None -> Product.cost p = None ->
             post_products p w = create_product p w) /\
  status_of RequestValidationError = 422%Z.
Proof.
  intros bad.
  assert (Hbad : forall f, bad f -> ge_0 (Some f) = false).
  { intros f [Hneg|Hnan]; [by apply float_neg_not_ge|by apply float_nan_not_ge]. }
  split; [|split; [|split; [|reflexivity]]].
  - intros p f [Hp|Hc] Hf; unfold post_products, endpoint, Product.valid.
    + by rewrite Hp, (Hbad f Hf).
    + rewrite Hc, (Hbad f Hf). by rewrite andb_false_r.
  - intros t f Hr Hf. unfold post_taxes, endpoint, Tax.valid. by rewrite Hr, (Hbad f Hf).
  - intros p Hp Hc. unfold post_products, endpoint, Product.valid. by rewrite Hp, Hc.
Qed.

Lemma X12_constraints_checked_first_witness :
  post_products Scenario.cheap_widget (mkWorld (Some Sample.empty_db) Sample.clock 0) =
    (Raise RequestValidationError, mkWorld (Some Sample.empty_db) Sample.clock 0) /\
  post_products Scenario.cheap_widget (mkWorld None Sample.clock 0) =
    (Raise RequestValidationError, mkWorld None Sample.clock 0).
Proof.
  split.
  - apply (proj1 (X12_constraints_checked_first _) Scenario.cheap_widget (-1)%float).
    + by left.
    + by left.
  - apply (proj1 (X12_constraints_checked_first _) Scenario.cheap_widget (-1)%float).
    + by left.
    + by left.
Defined.

(** ** From create to list *)



